(** * Input pipelines of MAE-pytorch/datasets.py

    A shallow embedding of [datasets.py]: the transform builder, the dataset
    selector, the augmentation object used for pretraining and the
    image-folder wrapper that pairs every image with a saliency mask.

    Conventions.
    - Python floats ([crop_pct], [mask_ratio], the normalisation statistics)
      are exact rationals [Q]; [int(x)] truncates toward zero.
    - Python exceptions are values of [Exn]; a computation is a function of
      the world that returns a result together with the world it leaves
      behind, so that a mutation made before an exception is not lost.
    - The configuration object [args] is one shared, mutable object: it lives
      in the world, and every function that receives [args] in the source
      reads and writes that object.
    - Libraries outside the repository (timm, torchvision, wilds, PIL, the
      file system) are the fields of an environment record [Env]. *)

From Stdlib Require Import ZArith QArith Qround Lia Ascii String.
From stdpp Require Import base list gmap strings.

Local Open Scope string_scope.
Local Open Scope Z_scope.

(** ** Exceptions and the world monad *)

Inductive Exn : Type :=
| AssertionError
| NotImplementedError
| ZeroDivisionError
| IndexError
| ValueError
| FileNotFoundError
| FormatError
| TypeError
| AttributeError
| LibraryError (msg : string).

Inductive result (A : Type) : Type :=
| Ok (a : A)
| Raise (e : Exn).
Arguments Ok {A} a.
Arguments Raise {A} e.

Definition is_ok {A} (r : result A) : bool :=
  match r with Ok _ => true | Raise _ => false end.

(** The per-channel statistics of [Normalize]. *)
Definition Stats : Type := Q * Q * Q.

(** timm.data.constants *)
Definition IMAGENET_DEFAULT_MEAN : Stats := (485 # 1000, 456 # 1000, 406 # 1000)%Q.
Definition IMAGENET_DEFAULT_STD : Stats := (229 # 1000, 224 # 1000, 225 # 1000)%Q.
Definition IMAGENET_INCEPTION_MEAN : Stats := (5 # 10, 5 # 10, 5 # 10)%Q.
Definition IMAGENET_INCEPTION_STD : Stats := (5 # 10, 5 # 10, 5 # 10)%Q.

(** The steps of a [transforms.Compose].  [TimmStep] stands for a step that
    timm's [create_transform] builds and this module never inspects. *)
Inductive Transform : Type :=
| RandomResizedCrop (size : Z)
| RandomCrop (size : Z) (padding : Z)
| Resize (size : Z) (interpolation : Z)
| CenterCrop (size : Z)
| ToTensor
| Normalize (mean std : Stats)
| TimmStep (repr : string).

Definition Compose : Type := list Transform.

(** The configuration ([args] / [cfg]). *)
Record Args : Type := mkArgs {
  input_size : Z;
  data_set : string;
  data_path : string;
  eval_data_path : string;
  nb_classes : Z;
  imagenet_default_mean_and_std : bool;
  color_jitter : Q;
  aa : string;
  train_interpolation : string;
  reprob : Q;
  remode : string;
  recount : Z;
  crop_pct : option Q;
  window_size : nat * nat;
  mask_ratio : Q;
  att_root : string
}.

Definition set_crop_pct (c : option Q) (a : Args) : Args :=
  {| input_size := input_size a; data_set := data_set a;
     data_path := data_path a; eval_data_path := eval_data_path a;
     nb_classes := nb_classes a;
     imagenet_default_mean_and_std := imagenet_default_mean_and_std a;
     color_jitter := color_jitter a; aa := aa a;
     train_interpolation := train_interpolation a;
     reprob := reprob a; remode := remode a; recount := recount a;
     crop_pct := c;
     window_size := window_size a; mask_ratio := mask_ratio a;
     att_root := att_root a |}.

(** What [print] writes. *)
Inductive Out : Type :=
| OutText (s : string)
| OutTransform (t : Transform)
| OutDataAug (transform : Compose) (standard : bool)
| OutNumClasses (n : Z).

(** The world: the configuration object, standard output, and the ambient
    random source (numpy's and torch's global generators) as a tape of raw
    draws. *)
Record World : Type := mkWorld {
  w_args : Args;
  w_out : list Out;
  w_rng : list nat
}.

Definition M (A : Type) : Type := World -> result A * World.

Definition ret {A} (a : A) : M A := fun w => (Ok a, w).

Definition bind {A B} (m : M A) (k : A -> M B) : M B :=
  fun w => match m w with
           | (Ok a, w') => k a w'
           | (Raise e, w') => (Raise e, w')
           end.

Definition raise {A} (e : Exn) : M A := fun w => (Raise e, w).

Definition lift {A} (r : result A) : M A := fun w => (r, w).

Declare Scope world_scope.
Delimit Scope world_scope with world.
Notation "x <- m ;; k" := (bind m (fun x => k))
  (at level 100, m at next level, right associativity) : world_scope.
Notation "m ;; k" := (bind m (fun _ => k))
  (at level 100, right associativity) : world_scope.
Local Open Scope world_scope.

Definition get_args : M Args := fun w => (Ok (w_args w), w).

Definition modify_args (f : Args -> Args) : M unit :=
  fun w => (Ok tt, {| w_args := f (w_args w); w_out := w_out w; w_rng := w_rng w |}).

Definition print (o : Out) : M unit :=
  fun w => (Ok tt, {| w_args := w_args w; w_out := w_out w ++ [o]; w_rng := w_rng w |}).

(** [assert c] *)
Definition assert (c : bool) : M unit :=
  if c then ret tt else raise AssertionError.

(** [for x in l: body x] *)
Fixpoint for_each {A} (l : list A) (body : A -> M unit) : M unit :=
  match l with
  | [] => ret tt
  | x :: l' => body x ;; for_each l' body
  end.

(** ** Python built-ins *)

(** [int(x)] on a float: truncation toward zero. *)
Definition py_int (q : Q) : Z := Z.quot (Qnum q) (Z.pos (Qden q)).

(** [a / b] on floats, as the exact quotient.  This is the value the code
    computes for the crop fractions that [build_transform] falls back on
    (224/256 and 1.0 are exact doubles and so are the quotients); for other
    crop fractions the rounding and the overflow of double division are not
    modelled. *)
Definition py_truediv (a b : Q) : result Q :=
  if Qeq_bool b 0 then Raise ZeroDivisionError else Ok (a / b)%Q.

(** [round(x)]: to the nearest integer, a tie goes to the even one. *)
Definition py_round (q : Q) : Z :=
  let f := Qfloor q in
  match (q - inject_Z f ?= 1 # 2)%Q with
  | Lt => f
  | Gt => f + 1
  | Eq => if Z.even f then f else f + 1
  end.

(** [l[i]] with Python's negative indices. *)
Definition py_index {A} (l : list A) (i : Z) : result A :=
  let n := Z.of_nat (length l) in
  let j := if i <? 0 then i + n else i in
  if (j <? 0) || (n <=? j) then Raise IndexError
  else match l !! Z.to_nat j with
       | Some x => Ok x
       | None => Raise IndexError
       end.

(** [l[i] = x] for [i >= 0]. *)
Definition py_setitem {A} (l : list A) (i : nat) (x : A) : result (list A) :=
  if decide (i < length l)%nat then Ok (<[i:=x]> l) else Raise IndexError.

(** [s.rfind(c)]: the last index of [c] in [s], [-1] when it is absent. *)
Fixpoint rfind (c : ascii) (s : string) : Z :=
  match s with
  | EmptyString => -1
  | String a s' =>
      let k := rfind c s' in
      if 0 <=? k then k + 1
      else if Ascii.eqb a c then 0 else -1
  end.

(** [s.split(c)] for a one-character separator. *)
Fixpoint py_split (c : ascii) (s : string) : list string :=
  match s with
  | EmptyString => [EmptyString]
  | String a s' =>
      if Ascii.eqb a c then EmptyString :: py_split c s'
      else match py_split c s' with
           | h :: t => String a h :: t
           | [] => [String a EmptyString]
           end
  end.

(** [s.rstrip(c)] *)
Fixpoint rstrip (c : ascii) (s : string) : string :=
  match s with
  | EmptyString => EmptyString
  | String a s' =>
      match rstrip c s' with
      | EmptyString => if Ascii.eqb a c then EmptyString else String a EmptyString
      | r => String a r
      end
  end.

(** [c in s] *)
Fixpoint contains_char (c : ascii) (s : string) : bool :=
  match s with
  | EmptyString => false
  | String a s' => Ascii.eqb a c || contains_char c s'
  end.

Fixpoint all_char (c : ascii) (s : string) : bool :=
  match s with
  | EmptyString => true
  | String a s' => Ascii.eqb a c && all_char c s'
  end.

Definition starts_with (c : ascii) (s : string) : bool :=
  match s with
  | String a _ => Ascii.eqb a c
  | EmptyString => false
  end.

Fixpoint ends_with (c : ascii) (s : string) : bool :=
  match s with
  | EmptyString => false
  | String a EmptyString => Ascii.eqb a c
  | String _ s' => ends_with c s'
  end.

Module os_path.

(** posixpath.split *)
Definition split (p : string) : string * string :=
  let i := Z.to_nat (rfind "/" p + 1) in
  let head := String.substring 0 i p in
  let tail := String.substring i (String.length p - i) p in
  let head' := if negb (String.eqb head "") && negb (all_char "/" head)
               then rstrip "/" head else head in
  (head', tail).

(** posixpath.join, two components *)
Definition join (a b : string) : string :=
  if starts_with "/" b then b
  else if String.eqb a "" || ends_with "/" a then a ++ b
  else a ++ "/" ++ b.

End os_path.

(** ** Data *)

(** A decoded image, the tensor a pipeline makes of it, and a patch mask
    (a numpy array of zeros and ones). *)
Definition Image : Type := list Z.
Definition Tensor : Type := list Q.
Definition Mask : Type := list Z.

(** What a dataset hands out as the sample: the raw image when no transform
    is bound, a tensor, or the pair of a tensor and a mask. *)
Inductive Sample : Type :=
| SImage (i : Image)
| STensor (t : Tensor)
| SPair (t : Tensor) (m : Mask).

(** A dataset of the wilds benchmark, as far as this module reads it. *)
Record WildsDataset : Type := mkWilds { wilds_n_classes : Z }.

Record WildsSubset : Type := mkWildsSubset {
  sub_split : string;
  sub_n_classes : Z;
  sub_transform : Compose
}.

(** ** The libraries and the file system *)

Record Env : Type := mkEnv {
  (** timm.data.create_transform(input_size, is_training, color_jitter,
      auto_augment, interpolation, re_prob, re_mode, re_count, mean, std) *)
  create_transform :
    Z -> bool -> Q -> string -> string -> Q -> string -> Z -> Stats -> Stats ->
    result Compose;
  (** calling a [Compose] on an image; its random steps draw from the tape *)
  run_compose : Compose -> Image -> list nat -> result Tensor * list nat;
  (** datasets.CIFAR100(root, train=...) *)
  tv_CIFAR100 : string -> bool -> result (list (Image * nat));
  (** datasets.ImageFolder(root): its classes and samples *)
  tv_ImageFolder : string -> result (list string * list (string * nat));
  (** wilds.get_dataset(name, root_dir=..., download=...) *)
  wilds_get_dataset : string -> string -> bool -> result WildsDataset;
  (** the sorted names of the sub-directories of a directory *)
  fs_subdirs : string -> list string;
  (** the image files below a directory, in walking order *)
  fs_images : string -> list string;
  (** whether a file exists *)
  fs_exists : string -> bool;
  (** the default loader of a folder dataset *)
  pil_loader : string -> result Image;
  (** decoding a greyscale saliency image and pooling it to a grid of
      [h * w] intensities, one per patch *)
  pool_saliency : string -> nat -> nat -> result (list Q)
}.

(** ** numpy *)

(** [np.zeros(n)], [np.ones(n)]: a negative dimension is refused. *)
Definition np_full (v : Z) (n : Z) : result (list Z) :=
  if n <? 0 then Raise ValueError else Ok (repeat v (Z.to_nat n)).

(** A uniform draw from [0 .. max], read off the tape. *)
Definition random_interval (max : nat) : M nat :=
  fun w => match w_rng w with
           | [] => (Ok 0%nat, w)
           | r :: tape =>
               (Ok (r mod (S max))%nat,
                {| w_args := w_args w; w_out := w_out w; w_rng := tape |})
           end.

(** [x[i], x[j] = x[j], x[i]] *)
Definition swap (x : list Z) (i j : nat) : list Z :=
  match x !! i, x !! j with
  | Some a, Some b => <[i:=b]> (<[j:=a]> x)
  | _, _ => x
  end.

(** [for i in reversed(range(1, n)): j = random_interval(i); swap] *)
Fixpoint shuffle_from (i : nat) (x : list Z) : M (list Z) :=
  match i with
  | O => ret x
  | S i' => j <- random_interval i ;; shuffle_from i' (swap x i j)
  end.

(** [np.random.shuffle(x)] *)
Definition np_random_shuffle (x : list Z) : M (list Z) :=
  shuffle_from (length x - 1) x.

(** ** masking_generator.RandomMaskingGenerator *)

Record RandomMaskingGenerator : Type := mkRandomMaskingGenerator {
  rmg_height : nat;
  rmg_width : nat;
  rmg_num_patches : nat;
  rmg_num_mask : Z
}.

(** Modelled from the spec: masking_generator.py is missing; [__init__] of
    the random masking generator, constructed with the grid height, the grid
    width and the mask ratio, which fixes the number of masked patches to
    [round(mask_ratio * grid_height * grid_width)]. *)
Definition RandomMaskingGenerator_init (window_size : nat * nat) (mask_ratio : Q)
  : RandomMaskingGenerator :=
  let '(h, w) := window_size in
  let n := (h * w)%nat in
  {| rmg_height := h; rmg_width := w; rmg_num_patches := n;
     rmg_num_mask := py_round (mask_ratio * inject_Z (Z.of_nat n)) |}.

(** Modelled from the spec: masking_generator.py is missing; [__call__] of
    the random masking generator: a fresh mask of [num_patches] entries,
    [num_mask] of them 1 and the rest 0, in shuffled order. *)
Definition RandomMaskingGenerator_call (g : RandomMaskingGenerator) : M Mask :=
  zeros <- lift (np_full 0 (Z.of_nat (rmg_num_patches g) - rmg_num_mask g)) ;;
  ones <- lift (np_full 1 (rmg_num_mask g)) ;;
  np_random_shuffle (zeros ++ ones).

(** ** saliency_mask.SaliencyMaskGenerator *)

Record SaliencyMaskGenerator : Type := mkSaliencyMaskGenerator {
  smg_height : nat;
  smg_width : nat;
  smg_num_patches : nat;
  smg_num_mask : Z
}.

(** Modelled from the spec: saliency_mask.py is missing; [__init__] of the
    saliency-driven masking generator, constructed like the random one. *)
Definition SaliencyMaskGenerator_init (window_size : nat * nat) (mask_ratio : Q)
  : SaliencyMaskGenerator :=
  let '(h, w) := window_size in
  let n := (h * w)%nat in
  {| smg_height := h; smg_width := w; smg_num_patches := n;
     smg_num_mask := py_round (mask_ratio * inject_Z (Z.of_nat n)) |}.

(** The rank of patch [i]: the number of patches that come before it when
    the patches are ordered by falling intensity, ties in index order. *)
Definition saliency_rank (v : list Q) (i : nat) (vi : Q) : nat :=
  length (List.filter
            (fun '(j, vj) => negb (Qle_bool vj vi) || (Qeq_bool vj vi && (j <? i)%nat))
            (imap (fun j vj => (j, vj)) v)).

(** Modelled from the spec: saliency_mask.py is missing; [__call__] of the
    saliency-driven masking generator: the file must exist and decode, it is
    pooled to the grid, and the [num_mask] patches of highest intensity are
    the masked ones. *)
Definition SaliencyMaskGenerator_call (env : Env) (g : SaliencyMaskGenerator)
    (path : string) : M Mask :=
  if negb (fs_exists env path) then raise FileNotFoundError
  else
    v <- lift (pool_saliency env path (smg_height g) (smg_width g)) ;;
    if negb (length v =? smg_num_patches g)%nat then raise FormatError
    else ret (imap (fun i vi =>
                      if Z.of_nat (saliency_rank v i vi) <? smg_num_mask g
                      then 1 else 0) v).

(** ** datasets.py *)

(** [torch.tensor(stats)]: the same three numbers, as a tensor. *)
Definition torch_tensor (s : Stats) : Stats := s.

(** PIL's code of bicubic interpolation. *)
Definition PIL_BICUBIC : Z := 3.

Record DataAugmentationForMAE : Type := mkDataAugmentationForMAE {
  aug_transform : Compose;
  aug_standard : bool;
  aug_masked_position_generator : option RandomMaskingGenerator
}.

(** [DataAugmentationForMAE.__init__(self, args, standard)] *)
Definition DataAugmentationForMAE_init (args : Args) (standard : bool)
  : DataAugmentationForMAE :=
  let imagenet_default_mean_and_std := imagenet_default_mean_and_std args in
  let mean := if negb imagenet_default_mean_and_std
              then IMAGENET_INCEPTION_MEAN else IMAGENET_DEFAULT_MEAN in
  let std := if negb imagenet_default_mean_and_std
             then IMAGENET_INCEPTION_STD else IMAGENET_DEFAULT_STD in
  {| aug_transform :=
       [ RandomResizedCrop (input_size args);
         ToTensor;
         Normalize (torch_tensor mean) (torch_tensor std) ];
     aug_standard := standard;
     aug_masked_position_generator :=
       if standard
       then Some (RandomMaskingGenerator_init (window_size args) (mask_ratio args))
       else None |}.

(** [compose(image)] *)
Definition call_compose (env : Env) (c : Compose) (image : Image) : M Tensor :=
  fun w => let '(r, tape) := run_compose env c image (w_rng w) in
           (r, {| w_args := w_args w; w_out := w_out w; w_rng := tape |}).

(** [DataAugmentationForMAE.__call__(self, image)] *)
Definition DataAugmentationForMAE_call (env : Env) (self : DataAugmentationForMAE)
    (image : Image) : M Sample :=
  if aug_standard self then
    t <- call_compose env (aug_transform self) image ;;
    m <- match aug_masked_position_generator self with
         | Some g => RandomMaskingGenerator_call g
         | None => raise AttributeError
         end ;;
    ret (SPair t m)
  else
    t <- call_compose env (aug_transform self) image ;;
    ret (STensor t).

(** The transforms that this module binds to a folder dataset: the
    [Compose] of [build_dataset] and the [DataAugmentationForMAE] of
    [build_pretraining_dataset]. *)
Inductive Callable : Type :=
| CallCompose (c : Compose)
| CallDataAug (a : DataAugmentationForMAE).

Definition call (env : Env) (f : Callable) (image : Image) : M Sample :=
  match f with
  | CallCompose c => t <- call_compose env c image ;; ret (STensor t)
  | CallDataAug a => DataAugmentationForMAE_call env a image
  end.

(** *** dataset_folder.ImageFolder *)

Record ImageFolder : Type := mkImageFolder {
  root : string;
  classes : list string;
  class_to_idx : gmap string nat;
  samples : list (string * nat);
  transform : option Callable;
  target_transform : option (nat -> nat)
}.

(** Modelled from the spec: dataset_folder.py is missing; the class
    discovery of the folder-per-class loader: one class per sub-directory,
    numbered in sorted order. *)
Definition find_classes (env : Env) (dir : string) : list string * gmap string nat :=
  let classes := fs_subdirs env dir in
  (classes, list_to_map (zip classes (seq 0 (length classes)))).

(** Modelled from the spec: dataset_folder.py is missing; the (path, label)
    entries of a folder dataset: the image files of every class directory,
    labelled with the index of the class. *)
Definition make_dataset (env : Env) (dir : string) (classes : list string)
    (class_to_idx : gmap string nat) : list (string * nat) :=
  flat_map (fun c =>
              match class_to_idx !! c with
              | Some i => map (fun p => (p, i)) (fs_images env (os_path.join dir c))
              | None => []
              end) classes.

(** Modelled from the spec: dataset_folder.py is missing; [__init__] of the
    folder dataset, which discovers the classes with the [find_classes]
    method of the object, enumerates the entries and binds the transform. *)
Definition ImageFolder_init (env : Env)
    (find_classes : string -> list string * gmap string nat)
    (root : string) (transform : option Callable)
    (target_transform : option (nat -> nat)) : ImageFolder :=
  let '(classes, class_to_idx) := find_classes root in
  {| root := root; classes := classes; class_to_idx := class_to_idx;
     samples := make_dataset env root classes class_to_idx;
     transform := transform; target_transform := target_transform |}.

(** *** ImageFolderWithAttMap *)

Record ImageFolderWithAttMap : Type := mkImageFolderWithAttMap {
  self_att_root : string;
  self_masked_position_generator : SaliencyMaskGenerator;
  self_folder : ImageFolder
}.

(** [ImageFolderWithAttMap.find_classes(self, dir)] *)
Definition ImageFolderWithAttMap_find_classes (dir : string)
  : list string * gmap string nat :=
  ([""], {[ "" := 0%nat ]}).

(** [ImageFolderWithAttMap.__init__(self, cfg, *args, **kwargs)] *)
Definition ImageFolderWithAttMap_init (env : Env) (cfg : Args) (root : string)
    (transform : option Callable) (target_transform : option (nat -> nat))
  : ImageFolderWithAttMap :=
  {| self_att_root := att_root cfg;
     self_masked_position_generator :=
       SaliencyMaskGenerator_init (window_size cfg) (mask_ratio cfg);
     self_folder :=
       ImageFolder_init env ImageFolderWithAttMap_find_classes root
                        transform target_transform |}.

(** [os.path.split(path)[-1].split('.')[0] + '.png'] *)
Definition att_filename (path : string) : result string :=
  match py_index (py_split "." (snd (os_path.split path))) 0 with
  | Ok stem => Ok (stem ++ ".png")
  | Raise e => Raise e
  end.

(** [ImageFolderWithAttMap.__getitem__(self, index)] *)
Definition ImageFolderWithAttMap_getitem (env : Env) (self : ImageFolderWithAttMap)
    (index : Z) : M ((Sample * Mask) * nat) :=
  entry <- lift (py_index (samples (self_folder self)) index) ;;
  let '(path, target) := entry in
  image <- lift (pil_loader env path) ;;
  sample <- match transform (self_folder self) with
            | Some f => call env f image
            | None => ret (SImage image)
            end ;;
  let target := match target_transform (self_folder self) with
                | Some f => f target
                | None => target
                end in
  fn <- lift (att_filename path) ;;
  mask <- SaliencyMaskGenerator_call env (self_masked_position_generator self)
            (os_path.join (self_att_root self) fn) ;;
  ret ((sample, mask), target).

(** The dataset objects this module returns. *)
Inductive Dataset : Type :=
| DsCIFAR100 (data : list (Image * nat)) (transform : Compose)
| DsTorchImageFolder (classes : list string) (samples : list (string * nat))
                     (transform : Compose)
| DsImageFolder (f : ImageFolder)
| DsImageFolderWithAttMap (a : ImageFolderWithAttMap)
| DsWildsSubset (s : WildsSubset).

(** [build_pretraining_dataset(args, standard)] *)
Definition build_pretraining_dataset (env : Env) (standard : bool) : M Dataset :=
  args <- get_args ;;
  let transform := DataAugmentationForMAE_init args standard in
  print (OutDataAug (aug_transform transform) (aug_standard transform)) ;;
  if standard then
    ret (DsImageFolder
           (ImageFolder_init env (find_classes env) (data_path args)
                             (Some (CallDataAug transform)) None))
  else
    ret (DsImageFolderWithAttMap
           (ImageFolderWithAttMap_init env args (data_path args)
                                       (Some (CallDataAug transform)) None)).

(** [build_transform(is_train, args)] *)
Definition build_transform (env : Env) (is_train : bool) : M Compose :=
  args <- get_args ;;
  let resize_im := 32 <? input_size args in
  let imagenet_default_mean_and_std := imagenet_default_mean_and_std args in
  let mean := if negb imagenet_default_mean_and_std
              then IMAGENET_INCEPTION_MEAN else IMAGENET_DEFAULT_MEAN in
  let std := if negb imagenet_default_mean_and_std
             then IMAGENET_INCEPTION_STD else IMAGENET_DEFAULT_STD in
  if is_train then
    transform <- lift (create_transform env (input_size args) true
                         (color_jitter args) (aa args) (train_interpolation args)
                         (reprob args) (remode args) (recount args) mean std) ;;
    if negb resize_im then
      lift (py_setitem transform 0 (RandomCrop (input_size args) 4))
    else ret transform
  else
    t <- (if resize_im then
            match crop_pct args with
            | None =>
                if input_size args <? 384
                then modify_args (set_crop_pct (Some (224 / 256)%Q))
                else modify_args (set_crop_pct (Some 1%Q))
            | Some _ => ret tt
            end ;;
            args <- get_args ;;
            crop <- match crop_pct args with
                    | Some c => ret c
                    | None => raise TypeError
                    end ;;
            q <- lift (py_truediv (inject_Z (input_size args)) crop) ;;
            let size := py_int q in
            ret [Resize size PIL_BICUBIC; CenterCrop (input_size args)]
          else ret []) ;;
    ret (t ++ [ToTensor; Normalize mean std])%list.

(** wilds: [dataset_full.get_subset(split, transform=...)]; the subset keeps
    the class count of the dataset it is taken from. *)
Definition get_subset (d : WildsDataset) (split : string) (transform : Compose)
  : WildsSubset :=
  {| sub_split := split; sub_n_classes := wilds_n_classes d;
     sub_transform := transform |}.

(** [build_dataset(is_train, args)].  [build_transform] returns a
    [Compose], never a tuple, so of the two printing loops the one for a
    single pipeline runs. *)
Definition build_dataset (env : Env) (is_train : bool) : M (Dataset * Z) :=
  transform <- build_transform env is_train ;;
  print (OutText "Transform = ") ;;
  for_each transform (fun t => print (OutTransform t)) ;;
  print (OutText "---------------------------") ;;
  args <- get_args ;;
  built <-
    (if String.eqb (data_set args) "CIFAR" then
       data <- lift (tv_CIFAR100 env (data_path args) is_train) ;;
       ret (DsCIFAR100 data transform, 100)
     else if String.eqb (data_set args) "IMNET" then
       let root := os_path.join (data_path args)
                                (if is_train then "train" else "val") in
       found <- lift (tv_ImageFolder env root) ;;
       ret (DsTorchImageFolder (fst found) (snd found) transform, 1000)
     else if String.eqb (data_set args) "image_folder" then
       let root := if is_train then data_path args else eval_data_path args in
       let dataset := ImageFolder_init env (find_classes env) root
                                       (Some (CallCompose transform)) None in
       let nb := nb_classes args in
       assert (Z.of_nat (size (class_to_idx dataset)) =? nb) ;;
       ret (DsImageFolder dataset, nb)
     else if String.eqb (data_set args) "iwildcam" then
       let root := if is_train then data_path args else eval_data_path args in
       dataset_full <- lift (wilds_get_dataset env "iwildcam" root true) ;;
       let split := if is_train then "train" else "test" in
       let dataset := get_subset dataset_full split transform in
       let nb := nb_classes args in
       assert (sub_n_classes dataset =? nb) ;;
       ret (DsWildsSubset dataset, nb)
     else raise NotImplementedError) ;;
  let '(dataset, nb_classes') := built in
  assert (nb_classes' =? nb_classes args) ;;
  print (OutNumClasses (nb_classes args)) ;;
  ret (dataset, nb_classes').

(** ** The claim on saliency paths, in the words of the specification *)

(** The base filename with its extension stripped, as [os.path.splitext]
    understands an extension: what follows the last dot, unless everything
    before that dot is dots. *)
Definition strip_extension (name : string) : string :=
  let dot := rfind "." name in
  let stem := String.substring 0 (Z.to_nat dot) name in
  if (0 <=? dot) && negb (all_char "." stem) then stem else name.

(** The companion saliency path as the specification words it: the base
    filename, its extension stripped, [.png] appended, under [att_root]. *)
Definition spec_att_path (att_root path : string) : string :=
  os_path.join att_root (strip_extension (snd (os_path.split path)) ++ ".png").

(** ** Counting, and a concrete setting to run the pipeline in *)

(** 1 when [x] is [v], else 0. *)
Definition hit (x v : Z) : nat := if Z.eq_dec x v then 1%nat else 0%nat.

(** A small installation: three class directories, two images in every
    directory that is scanned, the saliency maps [maps/foo.png] and
    [maps/a.b.png], a wilds dataset of 182 classes. *)
Definition example_env : Env :=
  {| create_transform := fun _ _ _ _ _ _ _ _ mean std =>
       Ok [TimmStep "RandomResizedCropAndInterpolation";
           TimmStep "RandomHorizontalFlip"; ToTensor; Normalize mean std];
     run_compose := fun _ image tape => (Ok (map inject_Z image), tl tape);
     tv_CIFAR100 := fun _ _ => Ok [];
     tv_ImageFolder := fun _ => Ok ([], []);
     wilds_get_dataset := fun _ _ _ => Ok {| wilds_n_classes := 182 |};
     fs_subdirs := fun _ => ["a"; "b"; "c"];
     fs_images := fun d => [os_path.join d "foo.jpg"; os_path.join d "a.b.jpg"];
     fs_exists := fun p => String.eqb p "maps/foo.png" || String.eqb p "maps/a.b.png";
     pil_loader := fun _ => Ok [1; 2; 3];
     pool_saliency := fun _ _ _ => Ok [1 # 2; 3 # 4; 1 # 4; 3 # 4]%Q |}.

Definition example_args : Args :=
  {| input_size := 224; data_set := "image_folder";
     data_path := "data"; eval_data_path := "eval";
     nb_classes := 3; imagenet_default_mean_and_std := true;
     color_jitter := (4 # 10)%Q; aa := "rand-m9-mstd0.5-inc1";
     train_interpolation := "bicubic";
     reprob := (1 # 4)%Q; remode := "pixel"; recount := 1;
     crop_pct := None; window_size := (2, 2)%nat; mask_ratio := (3 # 4)%Q;
     att_root := "maps" |}.

Definition example_world : World :=
  {| w_args := example_args; w_out := []; w_rng := [5; 3; 7; 1; 2; 9]%nat |}.

Definition with_args (f : Args -> Args) (w : World) : World :=
  {| w_args := f (w_args w); w_out := w_out w; w_rng := w_rng w |}.

Definition set_input_size (n : Z) (a : Args) : Args :=
  {| input_size := n; data_set := data_set a;
     data_path := data_path a; eval_data_path := eval_data_path a;
     nb_classes := nb_classes a;
     imagenet_default_mean_and_std := imagenet_default_mean_and_std a;
     color_jitter := color_jitter a; aa := aa a;
     train_interpolation := train_interpolation a;
     reprob := reprob a; remode := remode a; recount := recount a;
     crop_pct := crop_pct a;
     window_size := window_size a; mask_ratio := mask_ratio a;
     att_root := att_root a |}.

Definition set_data_set (d : string) (a : Args) : Args :=
  {| input_size := input_size a; data_set := d;
     data_path := data_path a; eval_data_path := eval_data_path a;
     nb_classes := nb_classes a;
     imagenet_default_mean_and_std := imagenet_default_mean_and_std a;
     color_jitter := color_jitter a; aa := aa a;
     train_interpolation := train_interpolation a;
     reprob := reprob a; remode := remode a; recount := recount a;
     crop_pct := crop_pct a;
     window_size := window_size a; mask_ratio := mask_ratio a;
     att_root := att_root a |}.

Definition set_nb_classes (n : Z) (a : Args) : Args :=
  {| input_size := input_size a; data_set := data_set a;
     data_path := data_path a; eval_data_path := eval_data_path a;
     nb_classes := n;
     imagenet_default_mean_and_std := imagenet_default_mean_and_std a;
     color_jitter := color_jitter a; aa := aa a;
     train_interpolation := train_interpolation a;
     reprob := reprob a; remode := remode a; recount := recount a;
     crop_pct := crop_pct a;
     window_size := window_size a; mask_ratio := mask_ratio a;
     att_root := att_root a |}.

(** The example with five configured classes, and with an identifier that
    [build_dataset] does not know, the latter also with a crop fraction of
    zero. *)
Definition five_class_world : World :=
  with_args (set_nb_classes 5) example_world.

Definition bogus_world : World :=
  with_args (set_data_set "bogus") example_world.

Definition bogus_zero_crop_world : World :=
  with_args (set_crop_pct (Some 0%Q)) bogus_world.

(** The saliency-paired dataset of the example, as
    [build_pretraining_dataset] builds it. *)
Definition example_att_folder : ImageFolderWithAttMap :=
  ImageFolderWithAttMap_init example_env example_args (data_path example_args)
    (Some (CallDataAug (DataAugmentationForMAE_init example_args false))) None.

(** The world after [os] has been printed. *)
Definition printed (os : list Out) (w : World) : World :=
  {| w_args := w_args w; w_out := w_out w ++ os; w_rng := w_rng w |}.

(** The class count that a branch of [build_dataset] stands for: the fixed
    100 and 1000 of CIFAR and IMNET, the discovered classes of a folder
    dataset, the class count of a wilds subset. *)
Definition branch_classes (d : Dataset) : option Z :=
  match d with
  | DsCIFAR100 _ _ => Some 100
  | DsTorchImageFolder _ _ _ => Some 1000
  | DsImageFolder f => Some (Z.of_nat (size (class_to_idx f)))
  | DsWildsSubset s => Some (sub_n_classes s)
  | DsImageFolderWithAttMap _ => None
  end.

(** The data-set identifiers that [build_dataset] knows. *)
Definition known_data_set (d : string) : bool :=
  String.eqb d "CIFAR" || String.eqb d "IMNET"
  || String.eqb d "image_folder" || String.eqb d "iwildcam".

(** The root of the image_folder and iwildcam branches. *)
Definition split_root (is_train : bool) (a : Args) : string :=
  if is_train then data_path a else eval_data_path a.

(** The mean and the standard deviation that the flag selects. *)
Definition selected_mean (a : Args) : Stats :=
  if imagenet_default_mean_and_std a
  then IMAGENET_DEFAULT_MEAN else IMAGENET_INCEPTION_MEAN.

Definition selected_std (a : Args) : Stats :=
  if imagenet_default_mean_and_std a
  then IMAGENET_DEFAULT_STD else IMAGENET_INCEPTION_STD.

(** The crop fraction that [build_transform] falls back on. *)
Definition default_crop_pct (a : Args) : Q :=
  if input_size a <? 384 then (224 / 256)%Q else 1%Q.

(** ** Further settings and readings of a dataset *)

(** The pipeline a dataset of [build_dataset] is bound to. *)
Definition dataset_transform (d : Dataset) : option Compose :=
  match d with
  | DsCIFAR100 _ t => Some t
  | DsTorchImageFolder _ _ t => Some t
  | DsImageFolder f =>
      match transform f with
      | Some (CallCompose t) => Some t
      | _ => None
      end
  | DsWildsSubset s => Some (sub_transform s)
  | DsImageFolderWithAttMap _ => None
  end.

(** What [build_dataset] prints once the pipeline [t] is built, up to the
    line on the class count. *)
Definition transform_banner (t : Compose) : list Out :=
  ([OutText "Transform = "] ++ map OutTransform t
   ++ [OutText "---------------------------"])%list.

(** The example at an input size of 32, with a crop fraction of one half,
    and as a CIFAR configuration of 100 classes. *)
Definition small_world : World := with_args (set_input_size 32) example_world.

Definition half_crop_world : World :=
  with_args (set_crop_pct (Some (1 # 2)%Q)) example_world.

Definition cifar_world : World :=
  with_args (set_data_set "CIFAR") (with_args (set_nb_classes 100) example_world).

(** The example installation without the CIFAR archive and with images that
    cannot be read. *)
Definition offline_env : Env :=
  {| create_transform := create_transform example_env;
     run_compose := run_compose example_env;
     tv_CIFAR100 := fun _ _ => Raise (LibraryError "Dataset not found or corrupted.");
     tv_ImageFolder := tv_ImageFolder example_env;
     wilds_get_dataset := wilds_get_dataset example_env;
     fs_subdirs := fs_subdirs example_env;
     fs_images := fs_images example_env;
     fs_exists := fun _ => false;
     pil_loader := fun _ => Raise FileNotFoundError;
     pool_saliency := pool_saliency example_env |}.

(** The example installation with a [create_transform] that returns a
    pipeline without steps. *)
Definition empty_pipeline_env : Env :=
  {| create_transform := fun _ _ _ _ _ _ _ _ _ _ => Ok [];
     run_compose := run_compose example_env;
     tv_CIFAR100 := tv_CIFAR100 example_env;
     tv_ImageFolder := tv_ImageFolder example_env;
     wilds_get_dataset := wilds_get_dataset example_env;
     fs_subdirs := fs_subdirs example_env;
     fs_images := fs_images example_env;
     fs_exists := fs_exists example_env;
     pil_loader := pil_loader example_env;
     pool_saliency := pool_saliency example_env |}.

(** The outcome of [build_dataset] for the configuration [a] once the
    pipeline [t] is built: the branches of its dispatch with their own
    assertions and the closing assertion, without the printing. *)
Definition selected_dataset (env : Env) (is_train : bool) (a : Args) (t : Compose)
  : result (Dataset * Z) :=
  if String.eqb (data_set a) "CIFAR" then
    match tv_CIFAR100 env (data_path a) is_train with
    | Ok data =>
        if 100 =? nb_classes a then Ok (DsCIFAR100 data t, 100)
        else Raise AssertionError
    | Raise e => Raise e
    end
  else if String.eqb (data_set a) "IMNET" then
    match tv_ImageFolder env (os_path.join (data_path a)
                                (if is_train then "train" else "val")) with
    | Ok found =>
        if 1000 =? nb_classes a
        then Ok (DsTorchImageFolder (fst found) (snd found) t, 1000)
        else Raise AssertionError
    | Raise e => Raise e
    end
  else if String.eqb (data_set a) "image_folder" then
    let dataset := ImageFolder_init env (find_classes env) (split_root is_train a)
                                    (Some (CallCompose t)) None in
    if Z.of_nat (size (class_to_idx dataset)) =? nb_classes a
    then Ok (DsImageFolder dataset, nb_classes a)
    else Raise AssertionError
  else if String.eqb (data_set a) "iwildcam" then
    match wilds_get_dataset env "iwildcam" (split_root is_train a) true with
    | Ok d =>
        if wilds_n_classes d =? nb_classes a
        then Ok (DsWildsSubset
                   (get_subset d (if is_train then "train" else "test") t),
                 nb_classes a)
        else Raise AssertionError
    | Raise e => Raise e
    end
  else Raise NotImplementedError.

(** The five-class example with a crop fraction of zero, and the example
    as a CIFAR configuration that keeps its three classes. *)
Definition five_class_zero_crop_world : World :=
  with_args (set_crop_pct (Some 0%Q)) five_class_world.

Definition cifar_three_world : World :=
  with_args (set_data_set "CIFAR") example_world.

(** * Properties *)

(** ** The built-ins on concrete values *)

Example py_round_ties :
  py_round (5 # 2) = 2 /\ py_round (7 # 2) = 4 /\ py_round (-5 # 2) = -2 /\
  py_round (26 # 10) = 3 /\ py_int (26 # 10) = 2 /\ py_int (-26 # 10) = -2.
Proof. repeat split. Qed.

Example os_path_split_examples :
  os_path.split "imgs/a.b.jpg" = ("imgs", "a.b.jpg") /\
  os_path.split "/foo.jpg" = ("/", "foo.jpg") /\
  os_path.split "foo" = ("", "foo") /\
  os_path.split "a//b/" = ("a//b", "").
Proof. repeat split. Qed.

Example os_path_join_examples :
  os_path.join "maps" "foo.png" = "maps/foo.png" /\
  os_path.join "maps/" "foo.png" = "maps/foo.png" /\
  os_path.join "" "foo.png" = "foo.png" /\
  os_path.join "maps" "/abs.png" = "/abs.png".
Proof. repeat split. Qed.

Example py_split_examples :
  py_split "." "a.b.jpg" = ["a"; "b"; "jpg"] /\
  py_split "." "foo" = ["foo"] /\
  py_split "." ".hidden" = [""; "hidden"] /\
  py_index [10; 20; 30] (-1) = Ok 30 /\
  py_index [10; 20; 30] 3 = Raise IndexError.
Proof. repeat split. Qed.

Example att_filename_foo : att_filename "data/foo.jpg" = Ok "foo.png".
Proof. reflexivity. Qed.

(** ** The world monad *)

Lemma bind_ok {A B} (m : M A) (k : A -> M B) w a w' :
  m w = (Ok a, w') -> bind m k w = k a w'.
Proof. intros H. unfold bind. now rewrite H. Qed.

Lemma bind_raise {A B} (m : M A) (k : A -> M B) w e w' :
  m w = (Raise e, w') -> bind m k w = (Raise e, w').
Proof. intros H. unfold bind. now rewrite H. Qed.

(** ** Rounding *)

Lemma py_round_bounds (q : Q) (n : Z) :
  (0 <= q)%Q -> (q <= inject_Z n)%Q -> 0 <= py_round q <= n.
Proof.
  intros H0 Hn.
  assert (Hf0 : 0 <= Qfloor q).
  { change 0 with (Qfloor (inject_Z 0)) at 1. rewrite <- (Qfloor_Z 0).
    now apply Qfloor_resp_le. }
  assert (Hfn : Qfloor q <= n).
  { rewrite <- (Qfloor_Z n). now apply Qfloor_resp_le. }
  unfold py_round. cbv zeta.
  destruct (Z.eq_dec (Qfloor q) n) as [E | NE].
  - (* the floor is already [n]: the fractional part is zero *)
    assert (Hq : (q - inject_Z (Qfloor q) <= 0)%Q).
    { rewrite E. apply (Qplus_le_l _ _ (inject_Z n)). ring_simplify. exact Hn. }
    destruct (Qcompare_spec (q - inject_Z (Qfloor q)) (1 # 2)) as [He | Hl | Hg].
    + rewrite He in Hq. unfold Qle in Hq. simpl in Hq. lia.
    + lia.
    + exfalso. apply (Qlt_not_le _ _ Hg). eapply Qle_trans; [exact Hq |].
      unfold Qle. simpl. lia.
  - destruct (q - inject_Z (Qfloor q) ?= 1 # 2)%Q; [destruct (Z.even _) | |]; lia.
Qed.

(** ** Shuffling *)

Lemma count_occ_cons_hit (l : list Z) (x v : Z) :
  count_occ Z.eq_dec (x :: l) v = (hit x v + count_occ Z.eq_dec l v)%nat.
Proof. unfold hit. simpl. destruct (Z.eq_dec x v); reflexivity. Qed.

Lemma count_occ_insert (l : list Z) (i : nat) (a b v : Z) :
  l !! i = Some a ->
  (count_occ Z.eq_dec (<[i:=b]> l) v + hit a v =
   count_occ Z.eq_dec l v + hit b v)%nat.
Proof.
  revert i. induction l as [| x l IH]; intros i Hi.
  - discriminate.
  - destruct i as [| i].
    + injection Hi as ->. change (<[0%nat:=b]> (a :: l)) with (b :: l).
      rewrite !count_occ_cons_hit. lia.
    + change (<[S i:=b]> (x :: l)) with (x :: <[i:=b]> l).
      rewrite !count_occ_cons_hit.
      specialize (IH i Hi). lia.
Qed.

Lemma swap_count (x : list Z) (i j : nat) (v : Z) :
  count_occ Z.eq_dec (swap x i j) v = count_occ Z.eq_dec x v.
Proof.
  unfold swap.
  destruct (x !! i) as [a |] eqn:Hi; [| reflexivity].
  destruct (x !! j) as [b |] eqn:Hj; [| reflexivity].
  pose proof (count_occ_insert x j b a v Hj) as H1.
  assert (Hi' : <[j:=a]> x !! i = Some a).
  { destruct (decide (i = j)) as [-> | Hne].
    - apply list_lookup_insert_eq. now apply lookup_lt_Some in Hj.
    - rewrite list_lookup_insert_ne by congruence. exact Hi. }
  pose proof (count_occ_insert (<[j:=a]> x) i a b v Hi') as H2.
  lia.
Qed.

Lemma swap_Permutation (x : list Z) (i j : nat) : Permutation (swap x i j) x.
Proof. apply (Permutation_count_occ Z.eq_dec). intros v. apply swap_count. Qed.

Lemma random_interval_ok (max : nat) (w : World) :
  exists j w', random_interval max w = (Ok j, w') /\ (j <= max)%nat /\
               w_args w' = w_args w /\ w_out w' = w_out w.
Proof.
  unfold random_interval. destruct (w_rng w) as [| r tape].
  - exists 0%nat, w. repeat split; lia.
  - eexists _, _. split; [reflexivity |]. cbn. repeat split.
    pose proof (Nat.mod_upper_bound r (S max)). lia.
Qed.

Lemma shuffle_from_Permutation (i : nat) (x : list Z) (w : World) :
  exists y w', shuffle_from i x w = (Ok y, w') /\ Permutation y x /\
               w_args w' = w_args w /\ w_out w' = w_out w.
Proof.
  revert x w. induction i as [| i IH]; intros x w.
  - exists x, w. repeat split. reflexivity.
  - destruct (random_interval_ok (S i) w) as (j & w1 & Hj & _ & Ha & Ho).
    destruct (IH (swap x (S i) j) w1) as (y & w2 & Hy & Hp & Ha2 & Ho2).
    exists y, w2. cbn [shuffle_from]. rewrite (bind_ok _ _ _ _ _ Hj).
    repeat split; [exact Hy | | congruence | congruence].
    etransitivity; [exact Hp | apply swap_Permutation].
Qed.

Lemma np_random_shuffle_Permutation (x : list Z) (w : World) :
  exists y w', np_random_shuffle x w = (Ok y, w') /\ Permutation y x /\
               w_args w' = w_args w /\ w_out w' = w_out w.
Proof. apply shuffle_from_Permutation. Qed.

(** ** The random masking generator *)

Lemma np_full_ok (v n : Z) : 0 <= n -> np_full v n = Ok (repeat v (Z.to_nat n)).
Proof. intros H. unfold np_full. destruct (Z.ltb_spec n 0); [lia | reflexivity]. Qed.

Lemma ratio_product_bounds (mask_ratio : Q) (n : nat) :
  (0 <= mask_ratio)%Q -> (mask_ratio <= 1)%Q ->
  0 <= py_round (mask_ratio * inject_Z (Z.of_nat n)) <= Z.of_nat n.
Proof.
  intros H0 H1.
  assert (Hn : (0 <= inject_Z (Z.of_nat n))%Q).
  { unfold Qle. simpl. lia. }
  apply py_round_bounds.
  - now apply Qmult_le_0_compat.
  - rewrite <- (Qmult_1_l (inject_Z (Z.of_nat n))) at 2.
    now apply Qmult_le_compat_r.
Qed.

(** C1.  For every grid [(h, w)] and every mask ratio between 0 and 1, a
    call of the random masking generator built for them returns, whatever
    the state of the random source, a mask of length [h * w] whose entries
    are 0 or 1, with exactly [round(mask_ratio * h * w)] ones and
    [h * w - round(mask_ratio * h * w)] zeros. *)
Theorem random_mask_counts (h w : nat) (mask_ratio : Q) (world : World) :
  (0 <= mask_ratio)%Q -> (mask_ratio <= 1)%Q ->
  exists mask world',
    RandomMaskingGenerator_call
      (RandomMaskingGenerator_init (h, w) mask_ratio) world = (Ok mask, world') /\
    length mask = (h * w)%nat /\
    Forall (fun b => b = 0 \/ b = 1) mask /\
    Z.of_nat (count_occ Z.eq_dec mask 1) =
      py_round (mask_ratio * inject_Z (Z.of_nat (h * w))) /\
    Z.of_nat (count_occ Z.eq_dec mask 0) =
      Z.of_nat (h * w) - py_round (mask_ratio * inject_Z (Z.of_nat (h * w))).
Proof.
  intros H0 H1.
  pose proof (ratio_product_bounds mask_ratio (h * w) H0 H1) as Hk.
  set (k := py_round (mask_ratio * inject_Z (Z.of_nat (h * w)))) in *.
  set (zeros := repeat 0 (Z.to_nat (Z.of_nat (h * w) - k))).
  set (ones := repeat 1 (Z.to_nat k)).
  destruct (np_random_shuffle_Permutation (zeros ++ ones) world)
    as (mask & world' & Hrun & Hperm & _).
  exists mask, world'. split.
  - unfold RandomMaskingGenerator_call, RandomMaskingGenerator_init, lift.
    cbn [rmg_num_patches rmg_num_mask]. fold k.
    rewrite (bind_ok _ _ world zeros world) by (rewrite np_full_ok by lia; reflexivity).
    rewrite (bind_ok _ _ world ones world) by (rewrite np_full_ok by lia; reflexivity).
    exact Hrun.
  - split; [| split; [| split]].
    + rewrite (Permutation_length Hperm), length_app.
      unfold zeros, ones. rewrite !repeat_length. lia.
    + eapply Permutation_Forall; [symmetry; exact Hperm |].
      apply Forall_app. split; apply Forall_forall; intros b Hb;
        apply list_elem_of_In, repeat_spec in Hb; auto.
    + rewrite (proj1 (Permutation_count_occ Z.eq_dec _ _) Hperm 1), count_occ_app.
      unfold zeros, ones.
      rewrite count_occ_repeat_neq by discriminate.
      rewrite count_occ_repeat_eq by reflexivity. lia.
    + rewrite (proj1 (Permutation_count_occ Z.eq_dec _ _) Hperm 0), count_occ_app.
      unfold zeros, ones.
      rewrite count_occ_repeat_eq by reflexivity.
      rewrite count_occ_repeat_neq by discriminate. lia.
Qed.

Lemma random_mask_counts_witness :
  (0 <= 3 # 4)%Q /\ (3 # 4 <= 1)%Q /\
  exists mask world',
    RandomMaskingGenerator_call
      (RandomMaskingGenerator_init (2, 2)%nat (3 # 4)) example_world = (Ok mask, world') /\
    length mask = (2 * 2)%nat /\
    Forall (fun b => b = 0 \/ b = 1) mask /\
    Z.of_nat (count_occ Z.eq_dec mask 1) =
      py_round ((3 # 4) * inject_Z (Z.of_nat (2 * 2))) /\
    Z.of_nat (count_occ Z.eq_dec mask 0) =
      Z.of_nat (2 * 2) - py_round ((3 # 4) * inject_Z (Z.of_nat (2 * 2))).
Proof.
  assert (H0 : (0 <= 3 # 4)%Q) by (unfold Qle; simpl; lia).
  assert (H1 : (3 # 4 <= 1)%Q) by (unfold Qle; simpl; lia).
  split; [exact H0 | split; [exact H1 |]].
  exact (random_mask_counts 2 2 (3 # 4) example_world H0 H1).
Defined.

(** ** The transform builder *)

Lemma negb_flag_mean (a : Args) :
  (if negb (imagenet_default_mean_and_std a)
   then IMAGENET_INCEPTION_MEAN else IMAGENET_DEFAULT_MEAN) = selected_mean a.
Proof. unfold selected_mean. now destruct (imagenet_default_mean_and_std a). Qed.

Lemma negb_flag_std (a : Args) :
  (if negb (imagenet_default_mean_and_std a)
   then IMAGENET_INCEPTION_STD else IMAGENET_DEFAULT_STD) = selected_std a.
Proof. unfold selected_std. now destruct (imagenet_default_mean_and_std a). Qed.

Lemma set_crop_pct_same (a : Args) : set_crop_pct (crop_pct a) a = a.
Proof. now destruct a. Qed.

(** The evaluation pipeline for an input size above 32 whose crop fraction
    is not set: the default is written to the configuration and used. *)
Lemma build_transform_eval_resize_default (env : Env) (w : World) :
  crop_pct (w_args w) = None -> 32 < input_size (w_args w) ->
  build_transform env false w =
    (Ok [ Resize (py_int (inject_Z (input_size (w_args w)) / default_crop_pct (w_args w)))
                 PIL_BICUBIC;
          CenterCrop (input_size (w_args w));
          ToTensor;
          Normalize (selected_mean (w_args w)) (selected_std (w_args w)) ],
     with_args (set_crop_pct (Some (default_crop_pct (w_args w)))) w).
Proof.
  intros Hc Hs. destruct w as [a out rng]. cbn [w_args] in *.
  unfold build_transform, bind, get_args. cbn [w_args].
  rewrite negb_flag_mean, negb_flag_std.
  destruct (Z.ltb_spec 32 (input_size a)); [| lia].
  rewrite Hc. unfold default_crop_pct, with_args.
  destruct (input_size a <? 384); reflexivity.
Qed.

(** The evaluation pipeline for an input size of at most 32: nothing is
    resized or cropped, and the world is left as it was. *)
Lemma build_transform_eval_no_resize (env : Env) (w : World) :
  input_size (w_args w) <= 32 ->
  build_transform env false w =
    (Ok [ ToTensor; Normalize (selected_mean (w_args w)) (selected_std (w_args w)) ], w).
Proof.
  intros Hs. destruct w as [a out rng]. cbn [w_args] in *.
  unfold build_transform, bind, get_args. cbn [w_args].
  rewrite negb_flag_mean, negb_flag_std.
  destruct (Z.ltb_spec 32 (input_size a)); [lia |].
  reflexivity.
Qed.

(** C2.  In evaluation mode, when the input size exceeds 32 and [crop_pct]
    is not set, [build_transform] sets [crop_pct] to 224/256 for an input
    size below 384 and to 1.0 otherwise, and returns: a resize of the short
    side to [int(input_size / crop_pct)] with bicubic interpolation, a centre
    crop to the input size, the tensor conversion and the normalisation.
    For the input size 224 the crop fraction is 224/256 and the resize
    target is 256. *)
Theorem build_transform_eval_crop_pct_default (env : Env) (w : World) :
  crop_pct (w_args w) = None -> 32 < input_size (w_args w) ->
  build_transform env false w =
    (Ok [ Resize (py_int (inject_Z (input_size (w_args w)) /
                          (if input_size (w_args w) <? 384 then 224 / 256 else 1)))
                 PIL_BICUBIC;
          CenterCrop (input_size (w_args w));
          ToTensor;
          Normalize (selected_mean (w_args w)) (selected_std (w_args w)) ],
     with_args (set_crop_pct
                  (Some (if input_size (w_args w) <? 384 then 224 / 256 else 1)%Q)) w)
  /\ (input_size (w_args w) = 224 ->
      build_transform env false w =
        (Ok [ Resize 256 3; CenterCrop 224; ToTensor;
              Normalize (selected_mean (w_args w)) (selected_std (w_args w)) ],
         with_args (set_crop_pct (Some (224 / 256)%Q)) w)).
Proof.
  intros Hc Hs.
  pose proof (build_transform_eval_resize_default env w Hc Hs) as H.
  unfold default_crop_pct in H. split; [exact H |].
  intros E. rewrite H, E. reflexivity.
Qed.

Lemma build_transform_eval_crop_pct_default_witness :
  crop_pct (w_args example_world) = None /\
  32 < input_size (w_args example_world) /\
  fst (build_transform example_env false example_world) =
    Ok [ Resize 256 3; CenterCrop 224; ToTensor;
         Normalize IMAGENET_DEFAULT_MEAN IMAGENET_DEFAULT_STD ].
Proof.
  assert (Hc : crop_pct (w_args example_world) = None) by reflexivity.
  assert (Hs : 32 < input_size (w_args example_world)) by (simpl; lia).
  split; [exact Hc | split; [exact Hs |]].
  rewrite (proj2 (build_transform_eval_crop_pct_default example_env example_world Hc Hs)
                 eq_refl).
  reflexivity.
Defined.

(** C3.  In evaluation mode with an input size of at most 32,
    [build_transform] returns the tensor conversion followed by the
    normalisation with the statistics that [imagenet_default_mean_and_std]
    selects, and nothing else: no resize and no crop. *)
Theorem build_transform_eval_small (env : Env) (w : World) :
  input_size (w_args w) <= 32 ->
  build_transform env false w =
    (Ok [ ToTensor;
          Normalize (if imagenet_default_mean_and_std (w_args w)
                     then IMAGENET_DEFAULT_MEAN else IMAGENET_INCEPTION_MEAN)
                    (if imagenet_default_mean_and_std (w_args w)
                     then IMAGENET_DEFAULT_STD else IMAGENET_INCEPTION_STD) ],
     w).
Proof.
  intros Hs. destruct w as [a out rng]. cbn [w_args] in *.
  unfold build_transform, bind, get_args. cbn [w_args].
  destruct (Z.ltb_spec 32 (input_size a)); [lia |].
  cbn [negb]. unfold ret.
  destruct (imagenet_default_mean_and_std a); reflexivity.
Qed.

Lemma build_transform_eval_small_witness :
  input_size (w_args (with_args (set_input_size 32) example_world)) <= 32 /\
  build_transform example_env false (with_args (set_input_size 32) example_world) =
    (Ok [ ToTensor; Normalize IMAGENET_DEFAULT_MEAN IMAGENET_DEFAULT_STD ],
     with_args (set_input_size 32) example_world).
Proof.
  assert (Hs : input_size (w_args (with_args (set_input_size 32) example_world)) <= 32)
    by (simpl; lia).
  split; [exact Hs |].
  exact (build_transform_eval_small example_env _ Hs).
Defined.

(** The frame of [build_transform]: standard output and the random source
    are left alone, and so is every field of the configuration but
    [crop_pct]. *)
Lemma build_transform_effect (env : Env) (is_train : bool) (w : World) :
  let w' := snd (build_transform env is_train w) in
  w_out w' = w_out w /\ w_rng w' = w_rng w /\
  w_args w' = set_crop_pct (crop_pct (w_args w')) (w_args w).
Proof.
  destruct w as [a out rng]. cbn zeta.
  destruct is_train.
  - unfold build_transform, bind, get_args, lift. cbn [w_args].
    destruct (create_transform _ _ _ _ _ _ _ _ _ _ _) as [t | e];
      [destruct (negb (32 <? input_size a)) |];
      cbn [snd w_args w_out w_rng]; rewrite set_crop_pct_same; auto.
  - destruct (Z.ltb_spec 32 (input_size a)) as [Hs | Hs].
    + destruct (crop_pct a) as [c |] eqn:Hc.
      * unfold build_transform, bind, get_args, lift. cbn [w_args].
        destruct (Z.ltb_spec 32 (input_size a)); [| lia].
        rewrite Hc. unfold ret. cbn [w_args]. rewrite Hc.
        destruct (py_truediv _ _); cbn [snd w_args w_out w_rng];
          rewrite Hc, <- Hc, set_crop_pct_same; auto.
      * rewrite (build_transform_eval_resize_default env (mkWorld a out rng) Hc Hs).
        unfold with_args. cbn [snd w_args w_out w_rng]. auto.
    + rewrite (build_transform_eval_no_resize env (mkWorld a out rng) Hs).
      cbn [snd w_args w_out w_rng]. rewrite set_crop_pct_same. auto.
Qed.

(** C4, refuted as stated: on the example configuration, whose [crop_pct]
    is not set, the evaluation call of [build_transform] leaves a
    configuration with another [crop_pct]. *)
Lemma build_transform_writes_crop_pct :
  crop_pct (w_args (snd (build_transform example_env false example_world))) <>
  crop_pct (w_args example_world).
Proof. vm_compute. discriminate. Qed.

(** C4, amended.  [build_transform] prints nothing and draws nothing from
    the random source, and it leaves every field of the configuration but
    [crop_pct] as it was.  It writes [crop_pct] in one case only: evaluation
    mode, an input size above 32 and no [crop_pct] set, where the field
    becomes 224/256 for an input size below 384 and 1.0 otherwise.  In every
    other case the world after the call is the world before it. *)
Theorem build_transform_frame (env : Env) (is_train : bool) (w : World) :
  let w' := snd (build_transform env is_train w) in
  w_out w' = w_out w /\ w_rng w' = w_rng w /\
  w_args w' = set_crop_pct (crop_pct (w_args w')) (w_args w) /\
  (if negb is_train && (32 <? input_size (w_args w))
      && match crop_pct (w_args w) with None => true | Some _ => false end
   then crop_pct (w_args w') =
          Some (if input_size (w_args w) <? 384 then 224 / 256 else 1)%Q
   else w' = w).
Proof.
  pose proof (build_transform_effect env is_train w) as Hframe.
  cbn zeta in Hframe. destruct Hframe as (Hout & Hrng & Hargs).
  cbn zeta. split; [exact Hout | split; [exact Hrng | split; [exact Hargs |]]].
  destruct is_train; cbn [negb andb].
  - (* training: the configuration is only read *)
    destruct w as [a out rng].
    unfold build_transform, bind, get_args, lift. cbn [w_args].
    destruct (create_transform _ _ _ _ _ _ _ _ _ _ _) as [t | e];
      [destruct (negb (32 <? input_size a)) |]; reflexivity.
  - destruct (Z.ltb_spec 32 (input_size (w_args w))) as [Hs | Hs]; cbn [andb].
    + destruct (crop_pct (w_args w)) as [c |] eqn:Hc.
      * (* the configured crop fraction is used and kept *)
        destruct w as [a out rng]. cbn [w_args] in *.
        unfold build_transform, bind, get_args, lift. cbn [w_args].
        destruct (Z.ltb_spec 32 (input_size a)); [| lia].
        rewrite Hc. unfold ret. cbn [w_args]. rewrite Hc.
        destruct (py_truediv _ _); reflexivity.
      * (* the default is stored *)
        rewrite (build_transform_eval_resize_default env w Hc Hs).
        reflexivity.
    + now rewrite (build_transform_eval_no_resize env w Hs).
Qed.


(** ** The dataset selector *)

Lemma print_run (o : Out) (w : World) : print o w = (Ok tt, printed [o] w).
Proof. reflexivity. Qed.

Lemma get_args_run (w : World) : get_args w = (Ok (w_args w), w).
Proof. reflexivity. Qed.

Lemma printed_app (os os' : list Out) (w : World) :
  printed os' (printed os w) = printed (os ++ os') w.
Proof. unfold printed. cbn. now rewrite app_assoc. Qed.

Lemma for_each_print_run (t : Compose) (w : World) :
  for_each t (fun x => print (OutTransform x)) w =
  (Ok tt, printed (map OutTransform t) w).
Proof.
  revert w. induction t as [| x t IH]; intros w.
  - unfold printed. cbn. rewrite app_nil_r. now destruct w.
  - cbn [for_each]. rewrite (bind_ok _ _ _ _ _ (print_run _ _)), IH, printed_app.
    reflexivity.
Qed.

(** The fields that [build_transform] never writes. *)
Lemma build_transform_keeps (env : Env) (is_train : bool) (w : World) r w1 :
  build_transform env is_train w = (r, w1) ->
  data_set (w_args w1) = data_set (w_args w) /\
  nb_classes (w_args w1) = nb_classes (w_args w) /\
  data_path (w_args w1) = data_path (w_args w) /\
  eval_data_path (w_args w1) = eval_data_path (w_args w).
Proof.
  intros H.
  pose proof (build_transform_effect env is_train w) as Hframe.
  cbn zeta in Hframe. destruct Hframe as (_ & _ & Ha).
  rewrite H in Ha. cbn [snd] in Ha. rewrite Ha. repeat split.
Qed.

(** [build_dataset] up to its dispatch, once the transform is built. *)
Ltac enter_build_dataset Hbt :=
  unfold build_dataset;
  rewrite (bind_ok _ _ _ _ _ Hbt);
  rewrite (bind_ok _ _ _ _ _ (print_run _ _));
  rewrite (bind_ok _ _ _ _ _ (for_each_print_run _ _));
  rewrite (bind_ok _ _ _ _ _ (print_run _ _));
  rewrite (bind_ok _ _ _ _ _ (get_args_run _));
  cbn [printed w_args].

(** A failing transform builder is all that [build_dataset] does. *)
Lemma build_dataset_transform_raises (env : Env) (is_train : bool) (w : World) e w1 :
  build_transform env is_train w = (Raise e, w1) ->
  build_dataset env is_train w = (Raise e, w1).
Proof. intros H. unfold build_dataset. now rewrite (bind_raise _ _ _ _ _ H). Qed.

(** What a successful [build_dataset] returns. *)
Lemma build_dataset_ok (env : Env) (is_train : bool) (w : World) ds n :
  fst (build_dataset env is_train w) = Ok (ds, n) ->
  n = nb_classes (w_args w) /\ branch_classes ds = Some n /\
  known_data_set (data_set (w_args w)) = true.
Proof.
  destruct (build_transform env is_train w) as [[t | e] w1] eqn:Hbt.
  2:{ rewrite (build_dataset_transform_raises _ _ _ _ _ Hbt). discriminate. }
  destruct (build_transform_keeps _ _ _ _ _ Hbt) as (Hd & Hn & Hp & He).
  enter_build_dataset Hbt. rewrite Hd, Hn, Hp, He. unfold known_data_set.
  unfold assert, bind, lift, ret, raise, print.
  destruct (String.eqb (data_set (w_args w)) "CIFAR").
  { destruct (tv_CIFAR100 _ _ _); [| discriminate]. cbv beta iota zeta.
    destruct (Z.eqb_spec 100 (nb_classes (w_args w))); [| discriminate].
    cbn. intros [= <- <-]. auto. }
  destruct (String.eqb (data_set (w_args w)) "IMNET").
  { destruct (tv_ImageFolder _ _); [| discriminate]. cbv beta iota zeta.
    destruct (Z.eqb_spec 1000 (nb_classes (w_args w))); [| discriminate].
    cbn. intros [= <- <-]. auto. }
  destruct (String.eqb (data_set (w_args w)) "image_folder").
  { destruct (Z.eqb_spec (Z.of_nat (size (class_to_idx
               (ImageFolder_init env (find_classes env)
                  (if is_train then data_path (w_args w) else eval_data_path (w_args w))
                  (Some (CallCompose t)) None)))) (nb_classes (w_args w)))
      as [E |]; [| discriminate].
    cbv beta iota zeta. rewrite Z.eqb_refl. cbv beta iota zeta.
    intros [= <- <-]. cbn [branch_classes]. rewrite E. auto. }
  destruct (String.eqb (data_set (w_args w)) "iwildcam").
  { destruct (wilds_get_dataset _ _ _ _) as [d |]; [| discriminate].
    cbn [get_subset sub_n_classes].
    destruct (Z.eqb_spec (wilds_n_classes d) (nb_classes (w_args w)))
      as [E |]; [| discriminate].
    cbv beta iota zeta. rewrite Z.eqb_refl. cbv beta iota zeta.
    intros [= <- <-]. cbn. rewrite E. auto. }
  discriminate.
Qed.

Lemma eqb_false_of_ne (s1 s2 : string) : s1 <> s2 -> String.eqb s1 s2 = false.
Proof. intros H. now apply String.eqb_neq. Qed.

(** C5, refuted as stated: the example has three class directories and
    five configured classes, an image_folder mismatch.  With a crop fraction
    of zero the evaluation call fails in the transform builder, with a
    division by zero and not with an assertion error; and the CIFAR branch
    with three configured classes fails, without the archive, with the
    exception of the loader. *)
Lemma build_dataset_mismatch_other_error :
  data_set (w_args five_class_zero_crop_world) = "image_folder" /\
  Z.of_nat (size (snd (find_classes example_env
                         (split_root false (w_args five_class_zero_crop_world)))))
    <> nb_classes (w_args five_class_zero_crop_world) /\
  fst (build_dataset example_env false five_class_zero_crop_world)
    = Raise ZeroDivisionError /\
  fst (build_dataset example_env false five_class_zero_crop_world)
    <> Raise AssertionError /\
  data_set (w_args cifar_three_world) = "CIFAR" /\
  100 <> nb_classes (w_args cifar_three_world) /\
  fst (build_dataset offline_env true cifar_three_world)
    = Raise (LibraryError "Dataset not found or corrupted.").
Proof. vm_compute. repeat split; discriminate. Qed.

(** C5, amended.  When [build_transform], which runs first, raises, that
    exception is the outcome of [build_dataset].  When it returns a
    transform: a loader of the selected branch that raises decides the
    outcome with its exception; otherwise [build_dataset] fails with an
    assertion error whenever the class count of the branch differs from the
    configured [nb_classes], be it the discovered classes of an image_folder
    dataset, the class count of the iwildcam dataset, or the fixed 100 of
    CIFAR and 1000 of IMNET.  Whenever it succeeds it returns the dataset
    paired with a class count that equals [nb_classes] and is the class count
    of the branch. *)
Theorem build_dataset_class_count (env : Env) (is_train : bool) (w : World) :
  (forall e w1,
     build_transform env is_train w = (Raise e, w1) ->
     build_dataset env is_train w = (Raise e, w1)) /\
  (forall t w1,
     build_transform env is_train w = (Ok t, w1) ->
     (data_set (w_args w) = "image_folder" ->
      Z.of_nat (size (class_to_idx
        (ImageFolder_init env (find_classes env) (split_root is_train (w_args w))
                          (Some (CallCompose t)) None))) <> nb_classes (w_args w) ->
      fst (build_dataset env is_train w) = Raise AssertionError) /\
     (data_set (w_args w) = "iwildcam" ->
      match wilds_get_dataset env "iwildcam" (split_root is_train (w_args w)) true with
      | Ok d =>
          wilds_n_classes d <> nb_classes (w_args w) ->
          fst (build_dataset env is_train w) = Raise AssertionError
      | Raise e => fst (build_dataset env is_train w) = Raise e
      end) /\
     (data_set (w_args w) = "CIFAR" ->
      match tv_CIFAR100 env (data_path (w_args w)) is_train with
      | Ok _ =>
          100 <> nb_classes (w_args w) ->
          fst (build_dataset env is_train w) = Raise AssertionError
      | Raise e => fst (build_dataset env is_train w) = Raise e
      end) /\
     (data_set (w_args w) = "IMNET" ->
      match tv_ImageFolder env (os_path.join (data_path (w_args w))
                                  (if is_train then "train" else "val")) with
      | Ok _ =>
          1000 <> nb_classes (w_args w) ->
          fst (build_dataset env is_train w) = Raise AssertionError
      | Raise e => fst (build_dataset env is_train w) = Raise e
      end)) /\
  (forall ds n,
     fst (build_dataset env is_train w) = Ok (ds, n) ->
     n = nb_classes (w_args w) /\ branch_classes ds = Some n).
Proof.
  split; [| split].
  - intros e w1. apply build_dataset_transform_raises.
  - intros t w1 Hbt.
    destruct (build_transform_keeps _ _ _ _ _ Hbt) as (Hd & Hn & Hp & He).
    unfold split_root. split; [| split; [| split]].
    + intros Hds Hne. enter_build_dataset Hbt. rewrite Hd, Hn, Hp, He, Hds.
      cbn [String.eqb Ascii.eqb Bool.eqb]. unfold assert, bind, ret, raise.
      destruct (Z.eqb_spec (Z.of_nat (size (class_to_idx
                 (ImageFolder_init env (find_classes env)
                    (if is_train then data_path (w_args w)
                     else eval_data_path (w_args w))
                    (Some (CallCompose t)) None)))) (nb_classes (w_args w)));
        [contradiction | reflexivity].
    + intros Hds. enter_build_dataset Hbt. rewrite Hd, Hn, Hp, He, Hds.
      cbn [String.eqb Ascii.eqb Bool.eqb]. unfold assert, bind, lift, ret, raise.
      destruct (wilds_get_dataset _ _ _ _) as [d | e]; [| reflexivity].
      intros Hne. cbn [get_subset sub_n_classes].
      destruct (Z.eqb_spec (wilds_n_classes d) (nb_classes (w_args w)));
        [contradiction | reflexivity].
    + intros Hds. enter_build_dataset Hbt. rewrite Hd, Hn, Hp, Hds.
      cbn [String.eqb Ascii.eqb Bool.eqb]. unfold assert, bind, lift, ret, raise.
      destruct (tv_CIFAR100 _ _ _) as [data | e]; [| reflexivity].
      intros Hne. cbv beta iota zeta.
      destruct (Z.eqb_spec 100 (nb_classes (w_args w))); [contradiction | reflexivity].
    + intros Hds. enter_build_dataset Hbt. rewrite Hd, Hn, Hp, Hds.
      cbn [String.eqb Ascii.eqb Bool.eqb]. unfold assert, bind, lift, ret, raise.
      destruct (tv_ImageFolder _ _) as [found | e]; [| reflexivity].
      intros Hne. cbv beta iota zeta.
      destruct (Z.eqb_spec 1000 (nb_classes (w_args w))); [contradiction | reflexivity].
  - intros ds n Hok. split; now apply (build_dataset_ok env is_train w ds n).
Qed.

Lemma build_dataset_class_count_witness :
  build_transform example_env true five_class_world =
    (Ok [ TimmStep "RandomResizedCropAndInterpolation";
          TimmStep "RandomHorizontalFlip"; ToTensor;
          Normalize IMAGENET_DEFAULT_MEAN IMAGENET_DEFAULT_STD ],
     five_class_world) /\
  fst (build_dataset example_env true five_class_world) = Raise AssertionError.
Proof.
  assert (Hbt : build_transform example_env true five_class_world =
                (Ok [ TimmStep "RandomResizedCropAndInterpolation";
                      TimmStep "RandomHorizontalFlip"; ToTensor;
                      Normalize IMAGENET_DEFAULT_MEAN IMAGENET_DEFAULT_STD ],
                 five_class_world)) by reflexivity.
  split; [exact Hbt |].
  apply (proj1 (proj1 (proj2 (build_dataset_class_count example_env true
                                five_class_world)) _ _ Hbt));
    [reflexivity | vm_compute; discriminate].
Defined.

(** C6, refuted as stated: with an unknown identifier and a crop fraction of
    zero, the evaluation call of [build_dataset] fails in the transform
    builder, with a division by zero, before it looks at the identifier. *)
Lemma build_dataset_unknown_zero_crop :
  known_data_set (data_set (w_args bogus_zero_crop_world)) = false /\
  fst (build_dataset example_env false bogus_zero_crop_world) = Raise ZeroDivisionError /\
  fst (build_dataset example_env false bogus_zero_crop_world) <> Raise NotImplementedError.
Proof. vm_compute. repeat split; discriminate. Qed.

(** C6, amended.  For a configuration whose [data_set] is none of CIFAR,
    IMNET, image_folder and iwildcam, [build_dataset] never returns a
    dataset.  It raises NotImplementedError whenever the transform builder,
    which runs first, returns a transform; when the transform builder raises,
    that exception is the outcome. *)
Theorem build_dataset_unknown (env : Env) (is_train : bool) (w : World) :
  data_set (w_args w) <> "CIFAR" ->
  data_set (w_args w) <> "IMNET" ->
  data_set (w_args w) <> "image_folder" ->
  data_set (w_args w) <> "iwildcam" ->
  is_ok (fst (build_dataset env is_train w)) = false /\
  (forall t w1,
     build_transform env is_train w = (Ok t, w1) ->
     fst (build_dataset env is_train w) = Raise NotImplementedError) /\
  (forall e w1,
     build_transform env is_train w = (Raise e, w1) ->
     build_dataset env is_train w = (Raise e, w1)).
Proof.
  intros H1 H2 H3 H4.
  assert (Hok : forall t w1,
             build_transform env is_train w = (Ok t, w1) ->
             fst (build_dataset env is_train w) = Raise NotImplementedError).
  { intros t w1 Hbt.
    destruct (build_transform_keeps _ _ _ _ _ Hbt) as (Hd & _).
    enter_build_dataset Hbt. rewrite Hd.
    rewrite !eqb_false_of_ne by assumption. reflexivity. }
  split; [| split].
  - destruct (build_transform env is_train w) as [[t | e] w1] eqn:Hbt.
    + now rewrite (Hok t w1).
    + now rewrite (build_dataset_transform_raises _ _ _ _ _ Hbt).
  - exact Hok.
  - intros e w1. apply build_dataset_transform_raises.
Qed.

Lemma build_dataset_unknown_witness :
  data_set (w_args bogus_world) <> "CIFAR" /\
  data_set (w_args bogus_world) <> "IMNET" /\
  data_set (w_args bogus_world) <> "image_folder" /\
  data_set (w_args bogus_world) <> "iwildcam" /\
  fst (build_dataset example_env true bogus_world) = Raise NotImplementedError.
Proof.
  assert (H1 : data_set (w_args bogus_world) <> "CIFAR") by (simpl; discriminate).
  assert (H2 : data_set (w_args bogus_world) <> "IMNET") by (simpl; discriminate).
  assert (H3 : data_set (w_args bogus_world) <> "image_folder") by (simpl; discriminate).
  assert (H4 : data_set (w_args bogus_world) <> "iwildcam") by (simpl; discriminate).
  repeat (split; [assumption |]).
  apply (proj1 (proj2 (build_dataset_unknown example_env true bogus_world H1 H2 H3 H4))
           [ TimmStep "RandomResizedCropAndInterpolation";
             TimmStep "RandomHorizontalFlip"; ToTensor;
             Normalize IMAGENET_DEFAULT_MEAN IMAGENET_DEFAULT_STD ]
           bogus_world).
  reflexivity.
Defined.

(** ** The saliency-paired folder *)

Lemma py_split_first (c : ascii) (s : string) :
  exists stem more rest,
    py_split c s = stem :: more /\ s = stem ++ rest /\
    contains_char c stem = false /\ (rest = "" \/ starts_with c rest = true).
Proof.
  induction s as [| a s IH].
  - exists "", [], "". cbn. auto.
  - cbn [py_split]. destruct (Ascii.eqb a c) eqn:E.
    + exists "", (py_split c s), (String a s). cbn. rewrite E. auto.
    + destruct IH as (stem & more & rest & Hs & Happ & Hno & Hrest).
      exists (String a stem), more, rest. rewrite Hs. cbn. rewrite E, Hno.
      repeat split; [now rewrite Happ at 1 | exact Hrest].
Qed.

Lemma py_index_head {A} (x : A) (l : list A) : py_index (x :: l) 0 = Ok x.
Proof.
  unfold py_index. cbn [length Z.ltb Z.compare].
  destruct (Z.leb_spec (Z.of_nat (S (length l))) 0); [lia | reflexivity].
Qed.

(** The file name of the companion map: what precedes the first dot of the
    base filename, followed by [.png]. *)
Lemma att_filename_stem (path : string) :
  exists stem rest,
    snd (os_path.split path) = stem ++ rest /\
    contains_char "." stem = false /\
    (rest = "" \/ starts_with "." rest = true) /\
    att_filename path = Ok (stem ++ ".png").
Proof.
  destruct (py_split_first "." (snd (os_path.split path)))
    as (stem & more & rest & Hs & Happ & Hno & Hrest).
  exists stem, rest. repeat split; try assumption.
  unfold att_filename. now rewrite Hs, py_index_head.
Qed.

Lemma saliency_missing (env : Env) (g : SaliencyMaskGenerator) (path : string) w :
  fs_exists env path = false ->
  SaliencyMaskGenerator_call env g path w = (Raise FileNotFoundError, w).
Proof. intros H. unfold SaliencyMaskGenerator_call. now rewrite H. Qed.

(** [__getitem__] up to the call of the saliency generator. *)
Lemma getitem_reaches_generator (env : Env) (self : ImageFolderWithAttMap)
    (index : Z) (w : World) path target image sample w1 fn :
  py_index (samples (self_folder self)) index = Ok (path, target) ->
  pil_loader env path = Ok image ->
  match transform (self_folder self) with
  | Some f => call env f image w
  | None => (Ok (SImage image), w)
  end = (Ok sample, w1) ->
  att_filename path = Ok fn ->
  ImageFolderWithAttMap_getitem env self index w =
    bind (SaliencyMaskGenerator_call env (self_masked_position_generator self)
            (os_path.join (self_att_root self) fn))
         (fun mask =>
            ret ((sample, mask),
                 match target_transform (self_folder self) with
                 | Some f => f target
                 | None => target
                 end)) w1.
Proof.
  intros Hidx Hload Htr Hfn. unfold ImageFolderWithAttMap_getitem.
  rewrite (bind_ok _ _ w (path, target) w) by (unfold lift; now rewrite Hidx).
  rewrite (bind_ok _ _ w image w) by (unfold lift; now rewrite Hload).
  rewrite (bind_ok _ _ w sample w1)
    by (destruct (transform (self_folder self)); exact Htr).
  rewrite (bind_ok _ _ w1 fn w1) by (unfold lift; now rewrite Hfn).
  reflexivity.
Qed.

(** Without the companion file there is no sample. *)
Lemma getitem_missing_map (env : Env) (self : ImageFolderWithAttMap)
    (index : Z) (w : World) path target fn :
  py_index (samples (self_folder self)) index = Ok (path, target) ->
  att_filename path = Ok fn ->
  fs_exists env (os_path.join (self_att_root self) fn) = false ->
  is_ok (fst (ImageFolderWithAttMap_getitem env self index w)) = false.
Proof.
  intros Hidx Hfn Hmiss. unfold ImageFolderWithAttMap_getitem.
  rewrite (bind_ok _ _ w (path, target) w) by (unfold lift; now rewrite Hidx).
  unfold bind at 1. unfold lift at 1.
  destruct (pil_loader env path) as [image | e]; [| reflexivity].
  unfold bind at 1.
  destruct (match transform (self_folder self) with
            | Some f => call env f image
            | None => ret (SImage image)
            end w) as [[sample | e] w1]; [| reflexivity].
  rewrite (bind_ok _ _ w1 fn w1) by (unfold lift; now rewrite Hfn).
  rewrite (bind_raise _ _ _ _ _ (saliency_missing _ _ _ _ Hmiss)).
  reflexivity.
Qed.

Lemma rfind_absent (c : ascii) (s : string) :
  contains_char c s = false -> rfind c s = -1.
Proof.
  induction s as [| a s IH]; [reflexivity |].
  cbn [contains_char rfind]. intros H. apply orb_false_elim in H as [Ha Hs].
  rewrite (IH Hs), Ha. reflexivity.
Qed.

Lemma rfind_last (c : ascii) (stem ext : string) :
  contains_char c ext = false ->
  rfind c (stem ++ String c ext) = Z.of_nat (String.length stem).
Proof.
  intros Hext. induction stem as [| a stem IH].
  - change (rfind c ("" ++ String c ext)) with
      (let k := rfind c ext in
       if 0 <=? k then k + 1 else if Ascii.eqb c c then 0 else -1).
    rewrite (rfind_absent _ _ Hext), Ascii.eqb_refl. reflexivity.
  - change (rfind c (String a stem ++ String c ext)) with
      (let k := rfind c (stem ++ String c ext) in
       if 0 <=? k then k + 1 else if Ascii.eqb a c then 0 else -1).
    rewrite IH. cbv zeta.
    destruct (Z.leb_spec 0 (Z.of_nat (String.length stem))); [| lia].
    cbn [String.length]. lia.
Qed.

Lemma append_empty_r (s : string) : s ++ "" = s.
Proof.
  induction s as [| a s IH]; [reflexivity |].
  change (String a s ++ "") with (String a (s ++ "")). now rewrite IH.
Qed.

Lemma substring_prefix (stem rest : string) :
  String.substring 0 (String.length stem) (stem ++ rest) = stem.
Proof.
  induction stem as [| a stem IH].
  - cbn. now destruct rest.
  - change (String a stem ++ rest) with (String a (stem ++ rest)).
    cbn [String.length String.substring]. now rewrite IH.
Qed.

Lemma all_char_no_char (c : ascii) (s : string) :
  s <> "" -> contains_char c s = false -> all_char c s = false.
Proof.
  destruct s as [| a s]; [congruence |]. cbn. intros _ H.
  apply orb_false_elim in H as [-> _]. reflexivity.
Qed.

(** Where the wording of the specification and the code agree: a base
    filename without a dot, or with one dot that is not its first
    character. *)
Lemma strip_extension_one_dot (stem rest : string) :
  contains_char "." stem = false ->
  rest = "" \/
    (stem <> "" /\ exists ext, rest = String "." ext /\ contains_char "." ext = false) ->
  strip_extension (stem ++ rest) = stem.
Proof.
  intros Hstem [-> | (Hne & ext & -> & Hext)]; unfold strip_extension.
  - rewrite append_empty_r, (rfind_absent _ _ Hstem). reflexivity.
  - rewrite (rfind_last _ _ _ Hext), Nat2Z.id, substring_prefix.
    rewrite (all_char_no_char _ _ Hne Hstem).
    destruct (Z.leb_spec 0 (Z.of_nat (String.length stem))); [reflexivity | lia].
Qed.

(** C7, the code at the failing input: the second image of the example is
    [data/a.b.jpg].  Stripping its extension, as the claim has it, gives the
    companion [maps/a.b.png], which exists; the code asks for [maps/a.png],
    which does not, and the retrieval fails. *)
Lemma att_path_two_dots :
  py_index (samples (self_folder example_att_folder)) 1 = Ok ("data/a.b.jpg", 0%nat) /\
  spec_att_path (self_att_root example_att_folder) "data/a.b.jpg" = "maps/a.b.png" /\
  fs_exists example_env (spec_att_path (self_att_root example_att_folder) "data/a.b.jpg")
    = true /\
  att_filename "data/a.b.jpg" = Ok "a.png" /\
  fst (ImageFolderWithAttMap_getitem example_env example_att_folder 1 example_world)
    = Raise FileNotFoundError.
Proof. vm_compute. repeat split. Qed.

(** What [__getitem__] does derive.  For the image at a valid index, the
    file name it asks the saliency generator for is the part of the image's
    base filename before its first dot, followed by [.png], joined under
    [att_root]; when no file exists there, the retrieval of the sample
    fails.  For a base filename with no dot, or with one dot that is not its
    first character (foo.jpg), this is the base filename with its extension
    replaced by [.png]. *)
Theorem getitem_saliency_path (env : Env) (self : ImageFolderWithAttMap)
    (index : Z) (w : World) (path : string) (target : nat) :
  py_index (samples (self_folder self)) index = Ok (path, target) ->
  exists stem rest,
    snd (os_path.split path) = stem ++ rest /\
    contains_char "." stem = false /\
    (rest = "" \/ starts_with "." rest = true) /\
    (forall image sample w1,
       pil_loader env path = Ok image ->
       match transform (self_folder self) with
       | Some f => call env f image w
       | None => (Ok (SImage image), w)
       end = (Ok sample, w1) ->
       ImageFolderWithAttMap_getitem env self index w =
         bind (SaliencyMaskGenerator_call env (self_masked_position_generator self)
                 (os_path.join (self_att_root self) (stem ++ ".png")))
              (fun mask =>
                 ret ((sample, mask),
                      match target_transform (self_folder self) with
                      | Some f => f target
                      | None => target
                      end)) w1) /\
    (fs_exists env (os_path.join (self_att_root self) (stem ++ ".png")) = false ->
     is_ok (fst (ImageFolderWithAttMap_getitem env self index w)) = false) /\
    (rest = "" \/
       (stem <> "" /\
        exists ext, rest = String "." ext /\ contains_char "." ext = false) ->
     os_path.join (self_att_root self) (stem ++ ".png") =
       spec_att_path (self_att_root self) path).
Proof.
  intros Hidx.
  destruct (att_filename_stem path) as (stem & rest & Hbase & Hno & Hrest & Hfn).
  exists stem, rest. repeat split; try assumption.
  - intros image sample w1 Hload Htr.
    now apply (getitem_reaches_generator env self index w path target image sample w1).
  - intros Hmiss.
    now apply (getitem_missing_map env self index w path target (stem ++ ".png")).
  - intros Hone. unfold spec_att_path.
    now rewrite Hbase, (strip_extension_one_dot stem rest Hno Hone).
Qed.

Lemma getitem_saliency_path_witness :
  py_index (samples (self_folder example_att_folder)) 0 = Ok ("data/foo.jpg", 0%nat) /\
  att_filename "data/foo.jpg" = Ok "foo.png" /\
  os_path.join (self_att_root example_att_folder) "foo.png" = "maps/foo.png" /\
  exists stem rest,
    snd (os_path.split "data/foo.jpg") = stem ++ rest /\
    contains_char "." stem = false /\
    (rest = "" \/ starts_with "." rest = true).
Proof.
  assert (Hidx : py_index (samples (self_folder example_att_folder)) 0 =
                 Ok ("data/foo.jpg", 0%nat)) by reflexivity.
  split; [exact Hidx |]. split; [reflexivity |]. split; [reflexivity |].
  destruct (getitem_saliency_path example_env example_att_folder 0 example_world
              "data/foo.jpg" 0%nat Hidx) as (stem & rest & H1 & H2 & H3 & _).
  exists stem, rest. auto.
Defined.

Lemma py_index_elem {A} (l : list A) (i : Z) (x : A) :
  py_index l i = Ok x -> x ∈ l.
Proof.
  unfold py_index.
  destruct (_ || _); [discriminate |].
  destruct (l !! _) as [y |] eqn:E; [| discriminate].
  intros [= <-]. apply list_elem_of_lookup. eauto.
Qed.

(** The entries of the saliency-paired folder: every image below the root,
    labelled 0. *)
Lemma att_folder_samples (env : Env) (cfg : Args) (root : string) tr tt :
  samples (self_folder (ImageFolderWithAttMap_init env cfg root tr tt)) =
  map (fun p => (p, 0%nat)) (fs_images env (os_path.join root "")).
Proof.
  unfold ImageFolderWithAttMap_init, ImageFolder_init,
    ImageFolderWithAttMap_find_classes, make_dataset.
  cbn [self_folder samples flat_map]. rewrite lookup_singleton_eq.
  apply app_nil_r.
Qed.

Lemma att_folder_target (env : Env) (cfg : Args) (root : string) tr tt index path target :
  py_index (samples (self_folder (ImageFolderWithAttMap_init env cfg root tr tt))) index
    = Ok (path, target) ->
  target = 0%nat.
Proof.
  intros H. apply py_index_elem in H. rewrite att_folder_samples in H.
  apply list_elem_of_fmap in H as (p & [= _ ->] & _). reflexivity.
Qed.

(** C8.  The saliency-paired folder replaces class discovery by the single
    class [""] with index 0, so every entry carries the label 0; a
    successful [__getitem__] returns that label, and with the transform that
    [build_pretraining_dataset] binds it returns
    [((image_tensor, mask), 0)]. *)
Theorem att_folder_placeholder_label (env : Env) (cfg : Args) (root : string)
    (tr : option Callable) :
  let self := ImageFolderWithAttMap_init env cfg root tr None in
  (forall dir, ImageFolderWithAttMap_find_classes dir = ([""], {[ "" := 0%nat ]})) /\
  classes (self_folder self) = [""] /\
  class_to_idx (self_folder self) = {[ "" := 0%nat ]} /\
  (forall index path target,
     py_index (samples (self_folder self)) index = Ok (path, target) ->
     target = 0%nat) /\
  (forall index w r w',
     ImageFolderWithAttMap_getitem env self index w = (Ok r, w') ->
     snd r = 0%nat) /\
  (forall index w path target image t w1 fn mask w2,
     tr = Some (CallDataAug (DataAugmentationForMAE_init cfg false)) ->
     py_index (samples (self_folder self)) index = Ok (path, target) ->
     pil_loader env path = Ok image ->
     call_compose env (aug_transform (DataAugmentationForMAE_init cfg false)) image w
       = (Ok t, w1) ->
     att_filename path = Ok fn ->
     SaliencyMaskGenerator_call env
       (SaliencyMaskGenerator_init (window_size cfg) (mask_ratio cfg))
       (os_path.join (att_root cfg) fn) w1 = (Ok mask, w2) ->
     ImageFolderWithAttMap_getitem env self index w =
       (Ok ((STensor t, mask), 0%nat), w2)).
Proof.
  cbn zeta. split; [reflexivity |]. split; [reflexivity |]. split; [reflexivity |].
  split; [| split].
  - intros index path target. apply att_folder_target.
  - intros index w r w'. unfold ImageFolderWithAttMap_getitem.
    unfold bind at 1. unfold lift at 1.
    destruct (py_index _ index) as [[path target] |] eqn:Hidx; [| discriminate].
    apply att_folder_target in Hidx as ->.
    unfold bind, lift, ret.
    destruct (pil_loader env path); [| discriminate].
    match goal with
    | |- context [match ?m w with _ => _ end] =>
        destruct (m w) as [[sample |] w1]; [| discriminate]
    end.
    destruct (att_filename path); [| discriminate].
    destruct (SaliencyMaskGenerator_call _ _ _ w1) as [[mask |] w2]; [| discriminate].
    cbn. intros [= <- _]. reflexivity.
  - intros index w path target image t w1 fn mask w2 -> Hidx Hload Hrun Hfn Hmask.
    pose proof (att_folder_target _ _ _ _ _ _ _ _ Hidx) as ->.
    rewrite (getitem_reaches_generator env _ index w path 0%nat image (STensor t) w1 fn
               Hidx Hload); [| | exact Hfn].
    + cbn [ImageFolderWithAttMap_init self_masked_position_generator self_att_root
             self_folder ImageFolder_init target_transform
             ImageFolderWithAttMap_find_classes].
      now rewrite (bind_ok _ _ _ _ _ Hmask).
    + cbn [ImageFolderWithAttMap_init self_folder ImageFolder_init transform
             ImageFolderWithAttMap_find_classes call DataAugmentationForMAE_call
             DataAugmentationForMAE_init aug_standard aug_transform].
      cbn [DataAugmentationForMAE_init aug_transform] in Hrun.
      now rewrite (bind_ok _ _ _ _ _ Hrun).
Qed.

Lemma att_folder_placeholder_label_witness :
  ImageFolderWithAttMap_getitem example_env example_att_folder 0 example_world =
    (Ok ((STensor [1; 2; 3]%Q, [1; 1; 0; 1]), 0%nat),
     {| w_args := example_args; w_out := []; w_rng := [3; 7; 1; 2; 9]%nat |}).
Proof.
  destruct (att_folder_placeholder_label example_env example_args
              (data_path example_args)
              (Some (CallDataAug (DataAugmentationForMAE_init example_args false))))
    as (_ & _ & _ & _ & _ & H).
  apply (H 0 example_world "data/foo.jpg" 0%nat [1; 2; 3] [1; 2; 3]%Q
           {| w_args := example_args; w_out := []; w_rng := [3; 7; 1; 2; 9]%nat |}
           "foo.png" [1; 1; 0; 1]); reflexivity.
Defined.

(** ** Pretraining *)

(** In standard mode every successful call of the pretraining transform is a
    tensor paired with a mask. *)
Lemma standard_call_pair (env : Env) (args : Args) image w0 s w1 :
  call env (CallDataAug (DataAugmentationForMAE_init args true)) image w0 = (Ok s, w1) ->
  exists t m, s = SPair t m.
Proof.
  cbn [call DataAugmentationForMAE_call DataAugmentationForMAE_init aug_standard
         aug_transform aug_masked_position_generator].
  unfold bind, ret.
  destruct (call_compose _ _ _ _) as [[t |] w']; [| discriminate].
  destruct (RandomMaskingGenerator_call _ _) as [[m |] w'']; [| discriminate].
  intros [= <- _]. eauto.
Qed.

(** Otherwise every successful call is a tensor alone. *)
Lemma plain_call_tensor (env : Env) (args : Args) image w0 s w1 :
  call env (CallDataAug (DataAugmentationForMAE_init args false)) image w0 = (Ok s, w1) ->
  exists t, s = STensor t.
Proof.
  cbn [call DataAugmentationForMAE_call DataAugmentationForMAE_init aug_standard
         aug_transform].
  unfold bind, ret.
  destruct (call_compose _ _ _ _) as [[t |] w']; [| discriminate].
  intros [= <- _]. eauto.
Qed.

(** C9.  [build_pretraining_dataset] dispatches on [standard].  With
    [standard] it returns a plain image-folder dataset on [data_path] whose
    transform, called on an image, runs the image pipeline and then the
    random masking generator of the configured grid and ratio, and returns
    the pair of the tensor and the mask.  Without [standard] it returns the
    saliency-paired folder on [data_path], whose transform returns the tensor
    alone and owns no masking generator; the mask is left to the saliency
    generator of the folder, under the configured [att_root]. *)
Theorem build_pretraining_dataset_dispatch (env : Env) (w : World) :
  (exists f aug,
     fst (build_pretraining_dataset env true w) = Ok (DsImageFolder f) /\
     root f = data_path (w_args w) /\
     transform f = Some (CallDataAug aug) /\
     aug = DataAugmentationForMAE_init (w_args w) true /\
     forall image w0,
       call env (CallDataAug aug) image w0 =
         bind (call_compose env (aug_transform aug) image)
              (fun t =>
                 bind (RandomMaskingGenerator_call
                         (RandomMaskingGenerator_init (window_size (w_args w))
                                                      (mask_ratio (w_args w))))
                      (fun m => ret (SPair t m))) w0) /\
  (forall image w0 s w1,
     call env (CallDataAug (DataAugmentationForMAE_init (w_args w) true)) image w0
       = (Ok s, w1) ->
     exists t m, s = SPair t m) /\
  (forall image w0 s w1,
     call env (CallDataAug (DataAugmentationForMAE_init (w_args w) false)) image w0
       = (Ok s, w1) ->
     exists t, s = STensor t) /\
  (exists s aug,
     fst (build_pretraining_dataset env false w) = Ok (DsImageFolderWithAttMap s) /\
     root (self_folder s) = data_path (w_args w) /\
     transform (self_folder s) = Some (CallDataAug aug) /\
     aug = DataAugmentationForMAE_init (w_args w) false /\
     aug_masked_position_generator aug = None /\
     (forall image w0,
        call env (CallDataAug aug) image w0 =
          bind (call_compose env (aug_transform aug) image)
               (fun t => ret (STensor t)) w0) /\
     self_masked_position_generator s =
       SaliencyMaskGenerator_init (window_size (w_args w)) (mask_ratio (w_args w)) /\
     self_att_root s = att_root (w_args w)).
Proof.
  split; [| split; [| split]].
  - eexists _, _. repeat split.
  - intros image w0 s w1. apply standard_call_pair.
  - intros image w0 s w1. apply plain_call_tensor.
  - eexists _, _. repeat split.
Qed.

Lemma build_pretraining_dataset_dispatch_witness :
  call example_env (CallDataAug (DataAugmentationForMAE_init example_args true))
       [1; 2; 3] example_world =
    (Ok (SPair [1; 2; 3]%Q [0; 1; 1; 1]),
     {| w_args := example_args; w_out := []; w_rng := [2; 9]%nat |}) /\
  exists t m, SPair [1; 2; 3]%Q [0; 1; 1; 1] = SPair t m.
Proof.
  assert (Hcall : call example_env
                    (CallDataAug (DataAugmentationForMAE_init example_args true))
                    [1; 2; 3] example_world =
                  (Ok (SPair [1; 2; 3]%Q [0; 1; 1; 1]),
                   {| w_args := example_args; w_out := [];
                      w_rng := [2; 9]%nat |})) by reflexivity.
  split; [exact Hcall |].
  exact (proj1 (proj2 (build_pretraining_dataset_dispatch example_env example_world))
           _ _ _ _ Hcall).
Defined.

(** C10.  The image pipeline of [DataAugmentationForMAE] is, for every
    configuration and whatever the input size, a random resized crop to the
    input size, the tensor conversion and the normalisation; its statistics
    are the ones [imagenet_default_mean_and_std] selects, and they are the
    statistics of the normalisation that ends the evaluation pipeline of
    [build_transform] and the ones that [build_transform] hands to
    [create_transform] in training mode. *)
Theorem pretraining_transform_shape (args : Args) (standard : bool) :
  aug_transform (DataAugmentationForMAE_init args standard) =
    [ RandomResizedCrop (input_size args);
      ToTensor;
      Normalize (if imagenet_default_mean_and_std args
                 then IMAGENET_DEFAULT_MEAN else IMAGENET_INCEPTION_MEAN)
                (if imagenet_default_mean_and_std args
                 then IMAGENET_DEFAULT_STD else IMAGENET_INCEPTION_STD) ] /\
  (forall env w t w1,
     w_args w = args ->
     build_transform env false w = (Ok t, w1) ->
     last t = last (aug_transform (DataAugmentationForMAE_init args standard))) /\
  (forall env w,
     w_args w = args ->
     build_transform env true w =
       bind (lift (create_transform env (input_size args) true (color_jitter args)
                     (aa args) (train_interpolation args) (reprob args) (remode args)
                     (recount args)
                     (if imagenet_default_mean_and_std args
                      then IMAGENET_DEFAULT_MEAN else IMAGENET_INCEPTION_MEAN)
                     (if imagenet_default_mean_and_std args
                      then IMAGENET_DEFAULT_STD else IMAGENET_INCEPTION_STD)))
            (fun transform =>
               if input_size args <=? 32
               then lift (py_setitem transform 0 (RandomCrop (input_size args) 4))
               else ret transform) w).
Proof.
  assert (Hshape : aug_transform (DataAugmentationForMAE_init args standard) =
                   [ RandomResizedCrop (input_size args); ToTensor;
                     Normalize (selected_mean args) (selected_std args) ]).
  { unfold DataAugmentationForMAE_init, torch_tensor. cbn [aug_transform].
    now rewrite negb_flag_mean, negb_flag_std. }
  split; [exact Hshape | split].
  - intros env w t w1 <- Hbt. rewrite Hshape. cbn [last].
    destruct (Z.ltb_spec 32 (input_size (w_args w))) as [Hs | Hs].
    + revert Hbt. unfold build_transform, bind, get_args, lift, ret, raise.
      rewrite negb_flag_mean, negb_flag_std.
      destruct (Z.ltb_spec 32 (input_size (w_args w))); [| lia].
      destruct (crop_pct (w_args w)) as [c |] eqn:Hc.
      * rewrite Hc. destruct (py_truediv _ _); [| discriminate].
        intros [= <- _]. reflexivity.
      * destruct (input_size (w_args w) <? 384); cbn [modify_args w_args crop_pct set_crop_pct];
          (destruct (py_truediv _ _); [| discriminate]); intros [= <- _]; reflexivity.
    + rewrite (build_transform_eval_no_resize env w Hs) in Hbt.
      injection Hbt as <- _. reflexivity.
  - intros env w <-. unfold build_transform.
    rewrite (bind_ok _ _ _ _ _ (get_args_run w)).
    rewrite negb_flag_mean, negb_flag_std. cbn [negb].
    unfold selected_mean, selected_std, bind.
    destruct (lift _ w) as [[transform |] w']; [| reflexivity].
    rewrite Z.leb_antisym. reflexivity.
Qed.

Lemma pretraining_transform_shape_witness :
  w_args example_world = example_args /\
  build_transform example_env false example_world =
    (Ok [ Resize 256 3; CenterCrop 224; ToTensor;
          Normalize IMAGENET_DEFAULT_MEAN IMAGENET_DEFAULT_STD ],
     with_args (set_crop_pct (Some (224 / 256)%Q)) example_world) /\
  last [ Resize 256 3; CenterCrop 224; ToTensor;
         Normalize IMAGENET_DEFAULT_MEAN IMAGENET_DEFAULT_STD ] =
    last (aug_transform (DataAugmentationForMAE_init example_args true)).
Proof.
  assert (Ha : w_args example_world = example_args) by reflexivity.
  assert (Hbt : build_transform example_env false example_world =
                (Ok [ Resize 256 3; CenterCrop 224; ToTensor;
                      Normalize IMAGENET_DEFAULT_MEAN IMAGENET_DEFAULT_STD ],
                 with_args (set_crop_pct (Some (224 / 256)%Q)) example_world))
    by reflexivity.
  split; [exact Ha | split; [exact Hbt |]].
  exact (proj1 (proj2 (pretraining_transform_shape example_args true))
           example_env example_world _ _ Ha Hbt).
Defined.

(** * Further properties of the code *)

(** ** The transform builder in training mode *)

(** In training mode [build_transform] returns the pipeline of
    [create_transform], called with the statistics that the flag selects,
    with its first step replaced by [RandomCrop(input_size, padding=4)] when
    the input size is at most 32 and untouched otherwise; the world is left
    as it was. *)
Theorem build_transform_train (env : Env) (w : World) (x : Transform) (rest : Compose) :
  create_transform env (input_size (w_args w)) true (color_jitter (w_args w))
    (aa (w_args w)) (train_interpolation (w_args w)) (reprob (w_args w))
    (remode (w_args w)) (recount (w_args w))
    (selected_mean (w_args w)) (selected_std (w_args w)) = Ok (x :: rest) ->
  build_transform env true w =
    (Ok ((if input_size (w_args w) <=? 32
          then RandomCrop (input_size (w_args w)) 4 else x) :: rest), w).
Proof.
  intros Hct. unfold build_transform.
  rewrite (bind_ok _ _ _ _ _ (get_args_run w)).
  rewrite negb_flag_mean, negb_flag_std.
  unfold bind, lift. rewrite Hct, Z.leb_antisym.
  destruct (32 <? input_size (w_args w)); reflexivity.
Qed.

Lemma build_transform_train_witness :
  build_transform example_env true small_world =
    (Ok [ RandomCrop 32 4; TimmStep "RandomHorizontalFlip"; ToTensor;
          Normalize IMAGENET_DEFAULT_MEAN IMAGENET_DEFAULT_STD ], small_world).
Proof.
  exact (build_transform_train example_env small_world
           (TimmStep "RandomResizedCropAndInterpolation")
           [ TimmStep "RandomHorizontalFlip"; ToTensor;
             Normalize IMAGENET_DEFAULT_MEAN IMAGENET_DEFAULT_STD ] eq_refl).
Defined.

(** When [create_transform] hands back a pipeline without steps, the
    replacement of the first step for an input size of at most 32 fails with
    an index error; an exception of [create_transform] is passed on.  In
    both cases the world is left as it was. *)
Theorem build_transform_train_failures (env : Env) (w : World) :
  (create_transform env (input_size (w_args w)) true (color_jitter (w_args w))
     (aa (w_args w)) (train_interpolation (w_args w)) (reprob (w_args w))
     (remode (w_args w)) (recount (w_args w))
     (selected_mean (w_args w)) (selected_std (w_args w)) = Ok [] ->
   input_size (w_args w) <= 32 ->
   build_transform env true w = (Raise IndexError, w)) /\
  (forall e,
     create_transform env (input_size (w_args w)) true (color_jitter (w_args w))
       (aa (w_args w)) (train_interpolation (w_args w)) (reprob (w_args w))
       (remode (w_args w)) (recount (w_args w))
       (selected_mean (w_args w)) (selected_std (w_args w)) = Raise e ->
     build_transform env true w = (Raise e, w)).
Proof.
  split.
  - intros Hct Hs. unfold build_transform.
    rewrite (bind_ok _ _ _ _ _ (get_args_run w)).
    rewrite negb_flag_mean, negb_flag_std.
    unfold bind, lift. rewrite Hct.
    destruct (Z.ltb_spec 32 (input_size (w_args w))); [lia | reflexivity].
  - intros e Hct. unfold build_transform.
    rewrite (bind_ok _ _ _ _ _ (get_args_run w)).
    rewrite negb_flag_mean, negb_flag_std.
    unfold bind, lift. now rewrite Hct.
Qed.

Lemma build_transform_train_failures_witness :
  build_transform empty_pipeline_env true small_world = (Raise IndexError, small_world).
Proof.
  apply (proj1 (build_transform_train_failures empty_pipeline_env small_world));
    [reflexivity | simpl; lia].
Defined.

(** ** The transform builder in evaluation mode *)

(** The evaluation pipeline with a crop fraction in the configuration. *)
Lemma build_transform_eval_with_crop (env : Env) (w : World) (c : Q) :
  crop_pct (w_args w) = Some c -> 32 < input_size (w_args w) ->
  build_transform env false w =
    (if Qeq_bool c 0 then Raise ZeroDivisionError
     else Ok [ Resize (py_int (inject_Z (input_size (w_args w)) / c)) PIL_BICUBIC;
               CenterCrop (input_size (w_args w));
               ToTensor;
               Normalize (selected_mean (w_args w)) (selected_std (w_args w)) ],
     w).
Proof.
  intros Hc Hs. destruct w as [a out rng]. cbn [w_args] in *.
  unfold build_transform, bind, get_args, lift. cbn [w_args].
  rewrite negb_flag_mean, negb_flag_std.
  destruct (Z.ltb_spec 32 (input_size a)); [| lia].
  rewrite Hc. unfold ret. cbn [w_args]. rewrite Hc.
  unfold py_truediv. destruct (Qeq_bool c 0); reflexivity.
Qed.

(** With a crop fraction in the configuration and an input size above 32,
    the evaluation call never writes the configuration, whatever its
    outcome; a crop fraction of zero is a division by zero; and a pipeline
    that is returned is a bicubic resize, the centre crop to the input size,
    the tensor conversion and the normalisation with the selected
    statistics. *)
Theorem build_transform_eval_configured (env : Env) (w : World) (c : Q) :
  crop_pct (w_args w) = Some c -> 32 < input_size (w_args w) ->
  snd (build_transform env false w) = w /\
  ((c == 0)%Q -> fst (build_transform env false w) = Raise ZeroDivisionError) /\
  (forall t,
     fst (build_transform env false w) = Ok t ->
     exists size,
       t = [ Resize size PIL_BICUBIC; CenterCrop (input_size (w_args w)); ToTensor;
             Normalize (selected_mean (w_args w)) (selected_std (w_args w)) ]).
Proof.
  intros Hc Hs. rewrite (build_transform_eval_with_crop env w c Hc Hs).
  cbn [fst snd]. split; [reflexivity | split].
  - intros Hz. apply Qeq_bool_iff in Hz. now rewrite Hz.
  - intros t. destruct (Qeq_bool c 0); [discriminate |].
    intros [= <-]. eexists. reflexivity.
Qed.

Lemma build_transform_eval_configured_witness :
  snd (build_transform example_env false half_crop_world) = half_crop_world.
Proof.
  refine (proj1 (build_transform_eval_configured example_env half_crop_world (1 # 2)
                   eq_refl _)).
  simpl; lia.
Defined.

(** Training mode leaves the world alone and does not read [crop_pct]. *)
Lemma build_transform_train_world (env : Env) (w : World) :
  snd (build_transform env true w) = w.
Proof.
  unfold build_transform, bind, get_args, lift.
  destruct (create_transform _ _ _ _ _ _ _ _ _ _ _) as [t | e];
    [destruct (negb (32 <? input_size (w_args w))) |]; reflexivity.
Qed.

Lemma build_transform_train_ignores_crop (env : Env) (w w' : World) :
  w_args w' = set_crop_pct (crop_pct (w_args w')) (w_args w) ->
  fst (build_transform env true w') = fst (build_transform env true w).
Proof.
  intros Ha. unfold build_transform, bind, get_args, lift.
  rewrite Ha. cbn [input_size color_jitter aa train_interpolation reprob remode
                     recount imagenet_default_mean_and_std set_crop_pct].
  destruct (create_transform _ _ _ _ _ _ _ _ _ _ _) as [t | e];
    [destruct (negb (32 <? input_size (w_args w))) |]; reflexivity.
Qed.

(** A second call of [build_transform] returns what the first call
    returned and changes nothing any more: the default crop fraction that an
    evaluation call stores is the one it would compute again. *)
Theorem build_transform_twice (env : Env) (is_train : bool) (w : World) :
  build_transform env is_train (snd (build_transform env is_train w)) =
  build_transform env is_train w.
Proof.
  destruct is_train.
  - now rewrite build_transform_train_world.
  - destruct (Z.ltb_spec 32 (input_size (w_args w))) as [Hs | Hs].
    + destruct (crop_pct (w_args w)) as [c |] eqn:Hc.
      * rewrite (build_transform_eval_with_crop env w c Hc Hs). cbn [snd].
        apply (build_transform_eval_with_crop env w c Hc Hs).
      * rewrite (build_transform_eval_resize_default env w Hc Hs). cbn [snd].
        rewrite (build_transform_eval_with_crop env _ (default_crop_pct (w_args w)));
          [| reflexivity | exact Hs].
        destruct w as [a out rng]. unfold default_crop_pct, with_args.
        cbn [w_args w_out w_rng]. destruct (input_size a <? 384); reflexivity.
    + rewrite (build_transform_eval_no_resize env w Hs). cbn [snd].
      apply (build_transform_eval_no_resize env w Hs).
Qed.

(** The pipelines for training and for evaluation do not depend on which
    of the two is built first. *)
Theorem build_transform_order (env : Env) (w : World) :
  fst (build_transform env true (snd (build_transform env false w))) =
    fst (build_transform env true w) /\
  fst (build_transform env false (snd (build_transform env true w))) =
    fst (build_transform env false w).
Proof.
  split.
  - apply build_transform_train_ignores_crop.
    pose proof (build_transform_effect env false w) as H. cbn zeta in H.
    now destruct H as (_ & _ & H).
  - now rewrite build_transform_train_world.
Qed.

(** ** The resize target *)

Lemma py_int_quotient (n : Z) (c : Q) :
  0 < Qnum c ->
  py_int (inject_Z n / c) = Z.quot (n * Z.pos (Qden c)) (Qnum c).
Proof.
  destruct c as [[| p | p] q]; cbn [Qnum Qden]; intros H; try lia.
  reflexivity.
Qed.

(** Without a configured crop fraction the resize target is
    [input_size * 256 / 224], rounded down, for an input size between 33 and
    383, which is more than the input size, and the input size itself from
    384 on. *)
Theorem resize_target_default (env : Env) (w : World) :
  crop_pct (w_args w) = None -> 32 < input_size (w_args w) ->
  exists size,
    fst (build_transform env false w) =
      Ok [ Resize size PIL_BICUBIC; CenterCrop (input_size (w_args w)); ToTensor;
           Normalize (selected_mean (w_args w)) (selected_std (w_args w)) ] /\
    (input_size (w_args w) < 384 ->
     size = input_size (w_args w) * 256 / 224 /\ input_size (w_args w) < size) /\
    (384 <= input_size (w_args w) -> size = input_size (w_args w)).
Proof.
  intros Hc Hs.
  exists (py_int (inject_Z (input_size (w_args w)) / default_crop_pct (w_args w))).
  split; [now rewrite (build_transform_eval_resize_default env w Hc Hs) |].
  unfold default_crop_pct.
  destruct (Z.ltb_spec (input_size (w_args w)) 384) as [Hlt | Hge]; split; try lia.
  - intros _. rewrite py_int_quotient by reflexivity.
    cbn [Qnum Qden Qdiv Qmult Qinv inject_Z].
    change (Z.pos (1 * 256)) with 256. change (224 * 1) with 224.
    rewrite Z.quot_div_nonneg by lia. split; [reflexivity |].
    apply Z.lt_le_trans with (input_size (w_args w) + 1); [lia |].
    apply Z.div_le_lower_bound; lia.
  - intros _. rewrite py_int_quotient by reflexivity.
    cbn [Qnum Qden]. rewrite Z.quot_1_r. lia.
Qed.

Lemma resize_target_default_witness :
  exists size,
    fst (build_transform example_env false example_world) =
      Ok [ Resize size PIL_BICUBIC; CenterCrop 224; ToTensor;
           Normalize IMAGENET_DEFAULT_MEAN IMAGENET_DEFAULT_STD ] /\
    (224 < 384 -> size = 224 * 256 / 224 /\ 224 < size) /\
    (384 <= 224 -> size = 224).
Proof.
  assert (Hs : 32 < input_size (w_args example_world)) by (simpl; lia).
  exact (resize_target_default example_env example_world eq_refl Hs).
Defined.

(** ** The dataset selector, branch by branch *)

(** [build_dataset] after a successful [build_transform]: the outcome of
    the dispatch, the banner on standard output, and the line on the class
    count when the outcome is a dataset. *)
Lemma build_dataset_run (env : Env) (is_train : bool) (w : World) t w1 :
  build_transform env is_train w = (Ok t, w1) ->
  build_dataset env is_train w =
    (selected_dataset env is_train (w_args w) t,
     printed (transform_banner t ++
              (if is_ok (selected_dataset env is_train (w_args w) t)
               then [OutNumClasses (nb_classes (w_args w))] else []))
             w1).
Proof.
  intros Hbt.
  destruct (build_transform_keeps _ _ _ _ _ Hbt) as (Hd & Hn & Hp & He).
  enter_build_dataset Hbt. rewrite !printed_app. fold (transform_banner t).
  rewrite Hd, Hn, Hp, He. unfold selected_dataset, split_root.
  unfold assert, bind, lift, ret, raise, print.
  assert (Hnil : printed (transform_banner t) w1 =
                 printed (transform_banner t ++ []) w1) by now rewrite app_nil_r.
  assert (Hone : forall o W, W = printed (transform_banner t) w1 ->
                   {| w_args := w_args W; w_out := w_out W ++ [o]; w_rng := w_rng W |}
                   = printed (transform_banner t ++ [o]) w1).
  { intros o W ->. unfold printed. cbn [w_args w_out w_rng]. now rewrite app_assoc. }
  destruct (String.eqb (data_set (w_args w)) "CIFAR").
  { destruct (tv_CIFAR100 _ _ _); cbv beta iota zeta; [| now rewrite Hnil].
    destruct (100 =? nb_classes (w_args w)); cbn [is_ok];
      [now rewrite (Hone _ _ eq_refl) | now rewrite Hnil]. }
  destruct (String.eqb (data_set (w_args w)) "IMNET").
  { destruct (tv_ImageFolder _ _); cbv beta iota zeta; [| now rewrite Hnil].
    destruct (1000 =? nb_classes (w_args w)); cbn [is_ok];
      [now rewrite (Hone _ _ eq_refl) | now rewrite Hnil]. }
  destruct (String.eqb (data_set (w_args w)) "image_folder").
  { cbv zeta.
    destruct (Z.of_nat (size (class_to_idx _)) =? nb_classes (w_args w));
      cbv beta iota zeta; [| now rewrite Hnil].
    rewrite Z.eqb_refl. cbn [is_ok]. now rewrite (Hone _ _ eq_refl). }
  destruct (String.eqb (data_set (w_args w)) "iwildcam").
  { destruct (wilds_get_dataset _ _ _ _) as [d |]; cbv beta iota zeta;
      [| now rewrite Hnil].
    cbn [get_subset sub_n_classes].
    destruct (wilds_n_classes d =? nb_classes (w_args w));
      cbv beta iota zeta; [| now rewrite Hnil].
    rewrite Z.eqb_refl. cbn [is_ok]. now rewrite (Hone _ _ eq_refl). }
  cbn [is_ok]. now rewrite Hnil.
Qed.

Ltac decide_data_set H :=
  rewrite H; cbn [String.eqb Ascii.eqb Bool.eqb].

(** [build_dataset] returns a dataset exactly when the pipeline can be
    built and the selected branch finds what it asserts: the loader of CIFAR
    or IMNET succeeds and [nb_classes] is 100 or 1000, the classes
    discovered under the image_folder root are [nb_classes] many, or the
    iwildcam dataset loads with [nb_classes] classes. *)
Theorem build_dataset_succeeds_iff (env : Env) (is_train : bool) (w : World) :
  is_ok (fst (build_dataset env is_train w)) = true <->
  exists t w1,
    build_transform env is_train w = (Ok t, w1) /\
    ((data_set (w_args w) = "CIFAR" /\ nb_classes (w_args w) = 100 /\
      is_ok (tv_CIFAR100 env (data_path (w_args w)) is_train) = true) \/
     (data_set (w_args w) = "IMNET" /\ nb_classes (w_args w) = 1000 /\
      is_ok (tv_ImageFolder env
               (os_path.join (data_path (w_args w))
                             (if is_train then "train" else "val"))) = true) \/
     (data_set (w_args w) = "image_folder" /\
      Z.of_nat (size (snd (find_classes env (split_root is_train (w_args w)))))
        = nb_classes (w_args w)) \/
     (data_set (w_args w) = "iwildcam" /\
      exists d,
        wilds_get_dataset env "iwildcam" (split_root is_train (w_args w)) true = Ok d /\
        wilds_n_classes d = nb_classes (w_args w))).
Proof.
  split.
  - destruct (build_transform env is_train w) as [[t | e] w1] eqn:Hbt.
    2:{ rewrite (build_dataset_transform_raises _ _ _ _ _ Hbt). discriminate. }
    rewrite (build_dataset_run _ _ _ _ _ Hbt). cbn [fst].
    intros Hok. exists t, w1. split; [reflexivity |]. revert Hok.
    unfold selected_dataset.
    destruct (String.eqb_spec (data_set (w_args w)) "CIFAR") as [E1 | _].
    { destruct (tv_CIFAR100 _ _ _); [| discriminate].
      destruct (Z.eqb_spec 100 (nb_classes (w_args w))); [| discriminate].
      intros _. left. auto. }
    destruct (String.eqb_spec (data_set (w_args w)) "IMNET") as [E2 | _].
    { destruct (tv_ImageFolder _ _); [| discriminate].
      destruct (Z.eqb_spec 1000 (nb_classes (w_args w))); [| discriminate].
      intros _. right. left. auto. }
    destruct (String.eqb_spec (data_set (w_args w)) "image_folder") as [E3 | _].
    { cbv zeta.
      destruct (Z.eqb_spec (Z.of_nat (size (class_to_idx
                  (ImageFolder_init env (find_classes env)
                     (split_root is_train (w_args w)) (Some (CallCompose t)) None))))
                  (nb_classes (w_args w))) as [E |]; [| discriminate].
      intros _. right. right. left. split; [exact E3 | exact E]. }
    destruct (String.eqb_spec (data_set (w_args w)) "iwildcam") as [E4 | _].
    { destruct (wilds_get_dataset _ _ _ _) as [d |]; [| discriminate].
      destruct (Z.eqb_spec (wilds_n_classes d) (nb_classes (w_args w))); [| discriminate].
      intros _. right. right. right. eauto. }
    discriminate.
  - intros (t & w1 & Hbt & Hcase).
    rewrite (build_dataset_run _ _ _ _ _ Hbt). cbn [fst]. unfold selected_dataset.
    destruct Hcase as [(Hds & Hn & Hl) | [(Hds & Hn & Hl) | [(Hds & Hn) | (Hds & d & Hl & Hn)]]];
      decide_data_set Hds.
    + destruct (tv_CIFAR100 _ _ _); [| discriminate]. now rewrite Hn.
    + destruct (tv_ImageFolder _ _); [| discriminate]. now rewrite Hn.
    + cbv zeta.
      change (class_to_idx (ImageFolder_init env (find_classes env)
                (split_root is_train (w_args w)) (Some (CallCompose t)) None))
        with (snd (find_classes env (split_root is_train (w_args w)))).
      now rewrite Hn, Z.eqb_refl.
    + rewrite Hl, Hn, Z.eqb_refl. reflexivity.
Qed.

Lemma build_dataset_succeeds_iff_witness :
  is_ok (fst (build_dataset example_env true example_world)) = true.
Proof.
  apply (proj2 (build_dataset_succeeds_iff example_env true example_world)).
  exists [ TimmStep "RandomResizedCropAndInterpolation";
           TimmStep "RandomHorizontalFlip"; ToTensor;
           Normalize IMAGENET_DEFAULT_MEAN IMAGENET_DEFAULT_STD ], example_world.
  split; [reflexivity |]. right. right. left. split; reflexivity.
Defined.

(** The dataset that [build_dataset] returns is bound to the very pipeline
    that [build_transform] built for the same mode; an image_folder dataset
    has its root at [data_path] in training and at [eval_data_path] in
    evaluation, and an iwildcam dataset is the train or the test split. *)
Theorem build_dataset_binds_transform (env : Env) (is_train : bool) (w : World) ds n :
  fst (build_dataset env is_train w) = Ok (ds, n) ->
  exists t w1,
    build_transform env is_train w = (Ok t, w1) /\
    dataset_transform ds = Some t /\
    (data_set (w_args w) = "image_folder" ->
     exists f, ds = DsImageFolder f /\
               root f = if is_train then data_path (w_args w)
                        else eval_data_path (w_args w)) /\
    (data_set (w_args w) = "iwildcam" ->
     exists s, ds = DsWildsSubset s /\
               sub_split s = if is_train then "train" else "test").
Proof.
  destruct (build_transform env is_train w) as [[t | e] w1] eqn:Hbt.
  2:{ rewrite (build_dataset_transform_raises _ _ _ _ _ Hbt). discriminate. }
  rewrite (build_dataset_run _ _ _ _ _ Hbt). cbn [fst].
  intros Hsel. exists t, w1. split; [reflexivity |]. revert Hsel.
  unfold selected_dataset.
  destruct (String.eqb_spec (data_set (w_args w)) "CIFAR") as [E1 | N1].
  { destruct (tv_CIFAR100 _ _ _); [| discriminate].
    destruct (100 =? nb_classes (w_args w)); [| discriminate].
    intros [= <- <-]. rewrite E1. repeat split; discriminate. }
  destruct (String.eqb_spec (data_set (w_args w)) "IMNET") as [E2 | N2].
  { destruct (tv_ImageFolder _ _); [| discriminate].
    destruct (1000 =? nb_classes (w_args w)); [| discriminate].
    intros [= <- <-]. rewrite E2. repeat split; discriminate. }
  destruct (String.eqb_spec (data_set (w_args w)) "image_folder") as [E3 | N3].
  { cbv zeta. destruct (_ =? nb_classes (w_args w)); [| discriminate].
    intros [= <- <-]. rewrite E3. repeat split; [| discriminate].
    intros _. eexists. split; reflexivity. }
  destruct (String.eqb_spec (data_set (w_args w)) "iwildcam") as [E4 | N4].
  { destruct (wilds_get_dataset _ _ _ _) as [d |]; [| discriminate].
    destruct (_ =? nb_classes (w_args w)); [| discriminate].
    intros [= <- <-]. repeat split; [contradiction |].
    intros _. eexists. split; reflexivity. }
  discriminate.
Qed.

Lemma build_dataset_binds_transform_witness :
  exists ds,
    fst (build_dataset example_env false example_world) = Ok (ds, 3) /\
    dataset_transform ds =
      Some [ Resize 256 3; CenterCrop 224; ToTensor;
             Normalize IMAGENET_DEFAULT_MEAN IMAGENET_DEFAULT_STD ].
Proof.
  eexists. split; [reflexivity |].
  destruct (build_dataset_binds_transform example_env false example_world _ _ eq_refl)
    as (t & w1 & Hbt & Hds & _).
  rewrite Hds. injection Hbt as <- _. reflexivity.
Defined.

(** What [build_dataset] leaves behind, whatever its outcome: the
    configuration as [build_transform] left it (a crop fraction stored by
    the evaluation pipeline stays stored when the dispatch fails), an
    untouched random source, and on standard output the banner with the
    steps of the pipeline once it is built, followed by the line on the
    class count if and only if a dataset is returned. *)
Theorem build_dataset_effects (env : Env) (is_train : bool) (w : World) :
  w_args (snd (build_dataset env is_train w)) =
    w_args (snd (build_transform env is_train w)) /\
  w_rng (snd (build_dataset env is_train w)) = w_rng w /\
  w_out (snd (build_dataset env is_train w)) =
    (w_out w ++
     match fst (build_transform env is_train w) with
     | Ok t =>
         transform_banner t ++
         (if is_ok (fst (build_dataset env is_train w))
          then [OutNumClasses (nb_classes (w_args w))] else [])
     | Raise _ => []
     end)%list.
Proof.
  pose proof (build_transform_effect env is_train w) as Hframe.
  cbn zeta in Hframe. destruct Hframe as (Hout & Hrng & _).
  destruct (build_transform env is_train w) as [[t | e] w1] eqn:Hbt;
    cbn [fst snd] in *.
  - rewrite (build_dataset_run _ _ _ _ _ Hbt). unfold printed.
    cbn [fst snd w_args w_out w_rng]. rewrite Hout. auto.
  - rewrite (build_dataset_transform_raises _ _ _ _ _ Hbt). cbn [snd].
    rewrite app_nil_r. auto.
Qed.

(** An exception of the loader of the selected branch is the outcome of
    [build_dataset]: no assertion is reached and nothing is caught. *)
Theorem build_dataset_loader_error (env : Env) (is_train : bool) (w : World) t w1 e :
  build_transform env is_train w = (Ok t, w1) ->
  (data_set (w_args w) = "CIFAR" ->
   tv_CIFAR100 env (data_path (w_args w)) is_train = Raise e ->
   fst (build_dataset env is_train w) = Raise e) /\
  (data_set (w_args w) = "IMNET" ->
   tv_ImageFolder env (os_path.join (data_path (w_args w))
                                    (if is_train then "train" else "val")) = Raise e ->
   fst (build_dataset env is_train w) = Raise e) /\
  (data_set (w_args w) = "iwildcam" ->
   wilds_get_dataset env "iwildcam"
     (if is_train then data_path (w_args w) else eval_data_path (w_args w)) true
     = Raise e ->
   fst (build_dataset env is_train w) = Raise e).
Proof.
  intros Hbt. rewrite (build_dataset_run _ _ _ _ _ Hbt). cbn [fst].
  unfold selected_dataset, split_root.
  repeat split; intros Hds Hl; decide_data_set Hds; now rewrite Hl.
Qed.

Lemma build_dataset_loader_error_witness :
  fst (build_dataset offline_env false cifar_world)
  = Raise (LibraryError "Dataset not found or corrupted.").
Proof.
  refine (proj1 (build_dataset_loader_error offline_env false cifar_world
                   [ Resize 256 3; CenterCrop 224; ToTensor;
                     Normalize IMAGENET_DEFAULT_MEAN IMAGENET_DEFAULT_STD ]
                   (with_args (set_crop_pct (Some (224 / 256)%Q)) cifar_world)
                   _ _) _ _); reflexivity.
Defined.

(** ** Retrieval from the saliency-paired folder *)

Lemma py_index_out_of_range {A} (l : list A) (i : Z) :
  i < - Z.of_nat (length l) \/ Z.of_nat (length l) <= i ->
  py_index l i = Raise IndexError.
Proof.
  intros H. unfold py_index.
  destruct (Z.ltb_spec i 0);
    destruct (Z.ltb_spec (i + Z.of_nat (length l)) 0);
    destruct (Z.ltb_spec i 0);
    destruct (Z.leb_spec (Z.of_nat (length l)) (i + Z.of_nat (length l)));
    destruct (Z.leb_spec (Z.of_nat (length l)) i);
    cbn [orb]; try reflexivity; lia.
Qed.

(** [__getitem__] fails at the first step that fails, with that step's
    exception: an index outside the entries is an index error before
    anything is read; an image that cannot be loaded is the loader's
    exception, and a failing transform the transform's, in both cases
    without the saliency map being looked up. *)
Theorem getitem_failure_order (env : Env) (self : ImageFolderWithAttMap)
    (index : Z) (w : World) :
  (index < - Z.of_nat (length (samples (self_folder self))) \/
   Z.of_nat (length (samples (self_folder self))) <= index ->
   ImageFolderWithAttMap_getitem env self index w = (Raise IndexError, w)) /\
  (forall path target e,
     py_index (samples (self_folder self)) index = Ok (path, target) ->
     pil_loader env path = Raise e ->
     ImageFolderWithAttMap_getitem env self index w = (Raise e, w)) /\
  (forall path target image f e w1,
     py_index (samples (self_folder self)) index = Ok (path, target) ->
     pil_loader env path = Ok image ->
     transform (self_folder self) = Some f ->
     call env f image w = (Raise e, w1) ->
     ImageFolderWithAttMap_getitem env self index w = (Raise e, w1)).
Proof.
  split; [| split].
  - intros Hrange. unfold ImageFolderWithAttMap_getitem.
    apply bind_raise. unfold lift. now rewrite py_index_out_of_range.
  - intros path target e Hidx Hload. unfold ImageFolderWithAttMap_getitem.
    rewrite (bind_ok _ _ w (path, target) w) by (unfold lift; now rewrite Hidx).
    apply bind_raise. unfold lift. now rewrite Hload.
  - intros path target image f e w1 Hidx Hload Htr Hcall.
    unfold ImageFolderWithAttMap_getitem.
    rewrite (bind_ok _ _ w (path, target) w) by (unfold lift; now rewrite Hidx).
    rewrite (bind_ok _ _ w image w) by (unfold lift; now rewrite Hload).
    apply bind_raise. now rewrite Htr.
Qed.

Lemma getitem_failure_order_witness :
  ImageFolderWithAttMap_getitem offline_env example_att_folder 0 example_world
    = (Raise FileNotFoundError, example_world) /\
  ImageFolderWithAttMap_getitem example_env example_att_folder 2 example_world
    = (Raise IndexError, example_world).
Proof.
  destruct (getitem_failure_order offline_env example_att_folder 0 example_world)
    as (_ & Hload & _).
  destruct (getitem_failure_order example_env example_att_folder 2 example_world)
    as (Hrange & _).
  split.
  - apply (Hload "data/foo.jpg" 0%nat FileNotFoundError); reflexivity.
  - apply Hrange. right. vm_compute. discriminate.
Defined.

(** ** The name of the companion map *)

Lemma length_append (a b : string) :
  String.length (a ++ b) = (String.length a + String.length b)%nat.
Proof.
  induction a as [| x a IH]; [reflexivity |].
  change (String x a ++ b) with (String x (a ++ b)). cbn [String.length].
  now rewrite IH.
Qed.

Lemma substring_all (s : string) : String.substring 0 (String.length s) s = s.
Proof. rewrite <- (append_empty_r s) at 2. apply substring_prefix. Qed.

Lemma substring_after (a : string) (c : ascii) (b : string) (m : nat) :
  String.substring (S (String.length a)) m (a ++ String c b) = String.substring 0 m b.
Proof.
  induction a as [| x a IH].
  - cbn. reflexivity.
  - change (String x a ++ String c b) with (String x (a ++ String c b)).
    cbn [String.length]. exact IH.
Qed.

Lemma contains_char_append (c : ascii) (a b : string) :
  contains_char c (a ++ b) = contains_char c a || contains_char c b.
Proof.
  induction a as [| x a IH]; [reflexivity |].
  change (String x a ++ b) with (String x (a ++ b)). cbn [contains_char].
  now rewrite IH, orb_assoc.
Qed.

(** The base filename of a path without a separator is the path, and the
    base filename of [dir/name] is [name]. *)
Lemma os_path_split_plain (name : string) :
  contains_char "/" name = false -> snd (os_path.split name) = name.
Proof.
  intros H. unfold os_path.split. rewrite (rfind_absent _ _ H).
  cbn [snd Z.add Z.to_nat Z.opp]. rewrite Nat.sub_0_r. apply substring_all.
Qed.

Lemma os_path_split_dir (dir name : string) :
  contains_char "/" name = false ->
  snd (os_path.split (dir ++ "/" ++ name)) = name.
Proof.
  intros H. unfold os_path.split. cbn [snd].
  change (dir ++ "/" ++ name) with (dir ++ String "/" name).
  rewrite (rfind_last _ _ _ H).
  replace (Z.to_nat (Z.of_nat (String.length dir) + 1)) with (S (String.length dir))
    by lia.
  rewrite substring_after, length_append. cbn [String.length].
  replace (String.length dir + S (String.length name) - S (String.length dir))%nat
    with (String.length name) by lia.
  apply substring_all.
Qed.

Lemma py_split_stem (c : ascii) (stem rest : string) :
  contains_char c stem = false ->
  py_split c (stem ++ String c rest) = stem :: py_split c rest.
Proof.
  intros H. induction stem as [| x stem IH].
  - change ("" ++ String c rest) with (String c rest). cbn [py_split].
    now rewrite Ascii.eqb_refl.
  - cbn [contains_char] in H. apply orb_false_elim in H as [Hx Hs].
    change (String x stem ++ String c rest) with (String x (stem ++ String c rest)).
    cbn [py_split]. now rewrite Hx, (IH Hs).
Qed.

(** The companion name depends on the base filename alone: images of the
    same name in different directories are paired with the same saliency
    map. *)
Theorem att_filename_ignores_directory (dir name : string) :
  contains_char "/" name = false ->
  att_filename (dir ++ "/" ++ name) = att_filename name.
Proof.
  intros H. unfold att_filename.
  now rewrite (os_path_split_dir dir name H), (os_path_split_plain name H).
Qed.

Lemma att_filename_ignores_directory_witness :
  att_filename ("train/cats" ++ "/" ++ "foo.jpg") = att_filename "foo.jpg".
Proof. exact (att_filename_ignores_directory "train/cats" "foo.jpg" eq_refl). Defined.

(** The companion name keeps what precedes the first dot of the base
    filename and nothing of what follows it: [stem.ext] is paired with
    [stem.png] whatever [ext] is, further dots included, so that names which
    differ after their first dot only share one saliency map, and a PNG
    image with a single dot is its own companion name. *)
Theorem att_filename_drops_after_first_dot (dir stem ext : string) :
  contains_char "." stem = false ->
  contains_char "/" stem = false ->
  contains_char "/" ext = false ->
  att_filename (dir ++ "/" ++ stem ++ "." ++ ext) = Ok (stem ++ ".png").
Proof.
  intros Hdot Hs He.
  assert (Hname : contains_char "/" (stem ++ "." ++ ext) = false).
  { rewrite contains_char_append, Hs.
    change ("." ++ ext) with (String "." ext). cbn [contains_char orb Ascii.eqb Bool.eqb].
    exact He. }
  unfold att_filename. rewrite (os_path_split_dir dir _ Hname).
  change (stem ++ "." ++ ext) with (stem ++ String "." ext).
  now rewrite (py_split_stem _ _ _ Hdot), py_index_head.
Qed.

Lemma att_filename_drops_after_first_dot_witness :
  att_filename ("data" ++ "/" ++ "a" ++ "." ++ "b.jpg") = Ok ("a" ++ ".png") /\
  att_filename ("data" ++ "/" ++ "a" ++ "." ++ "png") = Ok ("a" ++ ".png").
Proof.
  split.
  - exact (att_filename_drops_after_first_dot "data" "a" "b.jpg" eq_refl eq_refl eq_refl).
  - exact (att_filename_drops_after_first_dot "data" "a" "png" eq_refl eq_refl eq_refl).
Defined.

(** ** The pretraining transform in its two modes *)

(** In standard mode the image goes through the pipeline before the mask is
    drawn: the call returns the tensor, and starts the mask from the state of
    the random source, that the call without [standard] ends with on the
    same image; when that call fails, the standard call fails alike and
    draws no mask. *)
Theorem standard_call_after_plain_call (env : Env) (args : Args) (image : Image)
    (w : World) :
  (forall t w1,
     call env (CallDataAug (DataAugmentationForMAE_init args false)) image w
       = (Ok (STensor t), w1) ->
     call env (CallDataAug (DataAugmentationForMAE_init args true)) image w =
       bind (RandomMaskingGenerator_call
               (RandomMaskingGenerator_init (window_size args) (mask_ratio args)))
            (fun m => ret (SPair t m)) w1) /\
  (forall e w1,
     call env (CallDataAug (DataAugmentationForMAE_init args false)) image w
       = (Raise e, w1) ->
     call env (CallDataAug (DataAugmentationForMAE_init args true)) image w
       = (Raise e, w1)).
Proof.
  cbn [call DataAugmentationForMAE_call DataAugmentationForMAE_init aug_standard
         aug_transform aug_masked_position_generator].
  destruct (call_compose env
              (aug_transform (DataAugmentationForMAE_init args false)) image w)
    as [[t0 | e0] w0] eqn:Hrun;
    cbn [DataAugmentationForMAE_init aug_transform] in Hrun.
  - rewrite !(bind_ok _ _ _ _ _ Hrun).
    split; [intros t w1 [= <- <-]; reflexivity | discriminate].
  - rewrite !(bind_raise _ _ _ _ _ Hrun).
    split; [discriminate | intros e w1 [= <- <-]; reflexivity].
Qed.

Lemma standard_call_after_plain_call_witness :
  call example_env (CallDataAug (DataAugmentationForMAE_init example_args true))
       [1; 2; 3] example_world =
    (Ok (SPair [1; 2; 3]%Q [0; 1; 1; 1]),
     {| w_args := example_args; w_out := []; w_rng := [2; 9]%nat |}).
Proof.
  rewrite (proj1 (standard_call_after_plain_call example_env example_args [1; 2; 3]
                    example_world)
             [1; 2; 3]%Q
             {| w_args := example_args; w_out := []; w_rng := [3; 7; 1; 2; 9]%nat |}
             eq_refl).
  reflexivity.
Defined.

(** ** Building the training and the evaluation dataset in turn *)

(** What [build_transform] returns is a function of the configuration. *)
Lemma build_transform_args_only (env : Env) (is_train : bool) (w w' : World) :
  w_args w' = w_args w ->
  fst (build_transform env is_train w') = fst (build_transform env is_train w).
Proof.
  intros Ha. destruct is_train.
  - apply build_transform_train_ignores_crop. rewrite Ha at 2.
    rewrite Ha. now rewrite set_crop_pct_same.
  - destruct (Z.ltb_spec 32 (input_size (w_args w))) as [Hs | Hs].
    + destruct (crop_pct (w_args w)) as [c |] eqn:Hc.
      * rewrite (build_transform_eval_with_crop env w c Hc Hs).
        rewrite (build_transform_eval_with_crop env w' c) by (rewrite Ha; assumption).
        now rewrite Ha.
      * rewrite (build_transform_eval_resize_default env w Hc Hs).
        rewrite (build_transform_eval_resize_default env w') by (rewrite Ha; assumption).
        now rewrite Ha.
    + rewrite (build_transform_eval_no_resize env w Hs).
      rewrite (build_transform_eval_no_resize env w') by (rewrite Ha; assumption).
      now rewrite Ha.
Qed.

Lemma selected_dataset_ignores_crop (env : Env) (is_train : bool) (a : Args) c t :
  selected_dataset env is_train (set_crop_pct c a) t = selected_dataset env is_train a t.
Proof. reflexivity. Qed.

(** The outcome of [build_dataset] does not depend on the crop fraction
    when training, nor on anything but the configuration. *)
Lemma build_dataset_same_outcome (env : Env) (is_train : bool) (w w' : World) :
  w_args w' = set_crop_pct (crop_pct (w_args w')) (w_args w) ->
  fst (build_transform env is_train w') = fst (build_transform env is_train w) ->
  fst (build_dataset env is_train w') = fst (build_dataset env is_train w).
Proof.
  intros Ha Hfst.
  destruct (build_transform env is_train w) as [[t | e] w1] eqn:Hbt;
    destruct (build_transform env is_train w') as [[t' | e'] w1'] eqn:Hbt';
    cbn [fst] in Hfst; try discriminate; injection Hfst as ->.
  - rewrite (build_dataset_run _ _ _ _ _ Hbt), (build_dataset_run _ _ _ _ _ Hbt').
    cbn [fst]. rewrite Ha. apply selected_dataset_ignores_crop.
  - now rewrite (build_dataset_transform_raises _ _ _ _ _ Hbt),
      (build_dataset_transform_raises _ _ _ _ _ Hbt').
Qed.

(** [build_dataset] leaves the configuration as its [build_transform]
    call left it. *)
Lemma build_dataset_final_args (env : Env) (is_train : bool) (w : World) :
  w_args (snd (build_dataset env is_train w)) =
  w_args (snd (build_transform env is_train w)).
Proof.
  destruct (build_transform env is_train w) as [[t | e] w1] eqn:Hbt.
  - now rewrite (build_dataset_run _ _ _ _ _ Hbt).
  - now rewrite (build_dataset_transform_raises _ _ _ _ _ Hbt).
Qed.

(** The training dataset and the evaluation dataset come out the same
    whichever of the two [build_dataset] calls is made first on the shared
    configuration: the crop fraction that the evaluation call stores is not
    read in training mode, and the training call stores nothing. *)
Theorem build_dataset_order (env : Env) (w : World) :
  fst (build_dataset env true (snd (build_dataset env false w))) =
    fst (build_dataset env true w) /\
  fst (build_dataset env false (snd (build_dataset env true w))) =
    fst (build_dataset env false w).
Proof.
  split.
  - assert (Ha : w_args (snd (build_dataset env false w)) =
                 set_crop_pct (crop_pct (w_args (snd (build_dataset env false w))))
                              (w_args w)).
    { rewrite build_dataset_final_args.
      pose proof (build_transform_effect env false w) as H. cbn zeta in H.
      now destruct H as (_ & _ & H). }
    apply build_dataset_same_outcome; [exact Ha |].
    now apply build_transform_train_ignores_crop.
  - assert (Ha : w_args (snd (build_dataset env true w)) = w_args w).
    { now rewrite build_dataset_final_args, build_transform_train_world. }
    apply build_dataset_same_outcome.
    + rewrite Ha. now rewrite set_crop_pct_same.
    + now apply build_transform_args_only.
Qed.
